(** * cli_to_llm: the bash agent loop of [cli_wrapper.py]

    A shallow embedding of [SessionLogger] and [BashSession]
    (src/cli_wrapper.py) and the properties of the command executor
    ([_handle_bash_command]), the tool-call router ([process_tool_calls])
    and the agent loop ([process_bash_command]).

    Python values are modelled as follows.
    - [str] is a sequence of Unicode code points: [pystr := list N].
      ASCII literals of the source are written [u "..."].
    - [int] is unbounded: [Z].
    - a [dict] with string keys is a [gmap string _]; the keys the code
      looks up are ASCII literals.
    - the values of a tool input are [None], [bool], [int] and [str]
      ([pyval]); lists and dicts as such values are left out.
    - [float] arithmetic and the [str] of structured values, which only
      reach the log, are operations of the host.
    - effects (logging, the subprocess, the completion provider, stdout,
      mutation of the session object) are threaded through a state and
      exception monad [M]; everything that lives outside the program is an
      operation of the [Host] interface. *)

From Stdlib Require Import ZArith NArith String Ascii DecimalString.
From stdpp Require Import base option list strings gmap fin_maps sorting.

Open Scope Z_scope.

(** ** Python strings *)

Definition pystr : Type := list N.

(** An ASCII literal of the source as a Python [str]. *)
Definition u (s : string) : pystr := N_of_ascii <$> list_ascii_of_string s.

(** [Py_UNICODE_ISSPACE]: the characters [str.strip()] removes. *)
Definition isspace (c : N) : bool :=
  ((9 <=? c) && (c <=? 13)
   || (28 <=? c) && (c <=? 32)
   || (c =? 133) || (c =? 160) || (c =? 5760)
   || (8192 <=? c) && (c <=? 8202)
   || (c =? 8232) || (c =? 8233) || (c =? 8239) || (c =? 8287)
   || (c =? 12288))%N.

Fixpoint lstrip (s : pystr) : pystr :=
  match s with
  | c :: s' => if isspace c then lstrip s' else s
  | [] => []
  end.

Definition rstrip (s : pystr) : pystr := reverse (lstrip (reverse s)).

(** [s.strip()] *)
Definition strip (s : pystr) : pystr := lstrip (rstrip s).

(** Truth value of a [str]: non-empty. *)
Definition nonempty (s : pystr) : bool :=
  match s with [] => false | _ => true end.

(** ** Python values found in a tool input *)

Inductive pyval : Type :=
| PNone
| PBool (b : bool)
| PInt (z : Z)
| PStr (s : pystr).

Definition truthy (v : pyval) : bool :=
  match v with
  | PNone => false
  | PBool b => b
  | PInt z => negb (z =? 0)
  | PStr s => nonempty s
  end.

(** [str(v)], as used by f-strings. *)
Definition py_str (v : pyval) : pystr :=
  match v with
  | PNone => u "None"
  | PBool true => u "True"
  | PBool false => u "False"
  | PInt z => u (NilZero.string_of_int (Z.to_int z))
  | PStr s => s
  end.

(** Class name of a value, for the messages of [TypeError]. *)
Definition type_name (v : pyval) : pystr :=
  match v with
  | PNone => u "NoneType"
  | PBool _ => u "bool"
  | PInt _ => u "int"
  | PStr _ => u "str"
  end.

(** [d.get(key, dflt)] *)
Definition dict_get {V} (d : gmap string V) (key : string) (dflt : V) : V :=
  default dflt (d !! key).

(** ** SessionLogger: the usage ledger *)

Record SessionLogger : Type := mkSessionLogger {
  total_input_tokens : Z;
  total_output_tokens : Z
}.

(** [SessionLogger.__init__]: the counters start at 0. *)
Definition SessionLogger_init : SessionLogger :=
  {| total_input_tokens := 0; total_output_tokens := 0 |}.

Definition update_token_usage (input_tokens output_tokens : Z)
    (self : SessionLogger) : SessionLogger :=
  {| total_input_tokens := total_input_tokens self + input_tokens;
     total_output_tokens := total_output_tokens self + output_tokens |}.

(** ** Data exchanged with the outside *)

(** A raised instance of (a subclass of) [Exception]; [str(e)] is
    [exn_msg e].  [except Exception] handles exactly these. *)
Record exn : Type := mkExn { exn_class : string; exn_msg : pystr }.

Inductive outcome (A : Type) : Type :=
| Returned (a : A)
| Raised (e : exn).
Arguments Returned {A} a.
Arguments Raised {A} e.

(** What [subprocess.run(..., stdout=PIPE, stderr=PIPE, text=True)]
    returns. *)
Record CompletedProcess : Type := mkCompletedProcess {
  returncode : Z;
  stdout : pystr;
  stderr : pystr
}.

(** A content block of a provider response: [block.type] is ["text"] for
    the first constructor and ["tool_use"] for the second. *)
Inductive ContentBlock : Type :=
| TextBlock (text : pystr)
| ToolUseBlock (id name : pystr) (input : gmap string pyval).

Record Response : Type := mkResponse {
  stop_reason : pystr;
  resp_content : list ContentBlock;
  usage_input_tokens : Z;
  usage_output_tokens : Z
}.

(** The tool-result envelope
    [{"type": "tool_result", "content": [{"type": "text", "text": t}],
      "tool_use_id": id, "is_error": b}];
    [env_content] lists the texts of its text entries. *)
Record Envelope : Type := mkEnvelope {
  env_content : list pystr;
  tool_use_id : pystr;
  is_error : bool
}.

(** An element of the list [process_tool_calls] returns:
    [{"tool_call_id": id, "output": envelope}]. *)
Record ToolResult : Type := mkToolResult {
  tool_call_id : pystr;
  output : Envelope
}.

(** A block of a message of [self.messages]. *)
Inductive BlockParam : Type :=
| TextParam (text : pystr)          (* {"type": "text", "text": text} *)
| DumpParam (b : ContentBlock)      (* block.model_dump() *)
| ToolResultParam (e : Envelope).   (* a tool-result envelope *)

Record Message : Type := mkMessage {
  role : pystr;
  content : list BlockParam
}.

(** An entry of [conversation_history]: [{"role": r, "content": c}]. *)
Record HistoryMsg : Type := mkHistoryMsg {
  h_role : pystr;
  h_content : pystr
}.

(** An entry of [self.current_tool_calls]. *)
Record ToolCallRecord : Type := mkToolCallRecord {
  tc_command : pyval;
  tc_id : pystr
}.

Inductive level : Type := LvInfo | LvError.

(** What a run does to the outside, in order. *)
Inductive event : Type :=
| Log (lv : level) (msg : pystr)                   (* self.logger.info / .error *)
| Spawn (command : pyval) (env : gmap pystr pystr) (* subprocess.run *)
| Create (msgs : list Message)                     (* client.beta.messages.create *)
| Stdout (text : pystr).                           (* print *)

(** ** The host: everything the program calls but does not define *)

Class Host : Type := {
  (** the state of the machine and of the provider *)
  world : Type;
  (** [os.environ] *)
  os_environ : world -> gmap pystr pystr;
  (** [subprocess.run(command, shell=True, ..., env=env,
      executable="/bin/bash")] *)
  subprocess_run :
    pyval -> gmap pystr pystr -> world -> world * outcome CompletedProcess;
  (** [client.beta.messages.create(messages=msgs, ...)] *)
  messages_create : list Message -> world -> world * outcome Response;
  (** [traceback.format_exc()] while [e] is being handled *)
  format_exc : exn -> pystr;
  (** [str] of structured values, as f-strings print them *)
  repr_input : gmap string pyval -> pystr;
  repr_message : Message -> pystr;
  repr_response : Response -> pystr;
  repr_content : list pystr -> pystr;
  (** [float] and the operations [log_total_cost] uses *)
  pyfloat : Type;
  int_truediv : Z -> Z -> pyfloat;
  float_of_int : Z -> pyfloat;
  float_mul : pyfloat -> pyfloat -> pyfloat;
  float_add : pyfloat -> pyfloat -> pyfloat;
  format_6f : pyfloat -> pystr
}.

(** ** BashSession *)

Record BashSession : Type := mkBashSession {
  messages : list Message;
  current_tool_calls : list ToolCallRecord;
  environment : gmap pystr pystr;
  no_agi : bool;
  session_logger : SessionLogger
}.

Section Program.
Context `{host : Host}.

Record state : Type := mkState {
  the_world : world;
  self : BashSession;
  trace : list event
}.

(** *** The state and exception monad *)

Definition M (A : Type) : Type := state -> state * outcome A.

#[export] Instance M_ret : MRet M := λ A a st, (st, Returned a).

#[export] Instance M_bind : MBind M := λ A B f m st,
  match m st with
  | (st', Returned a) => f a st'
  | (st', Raised e) => (st', Raised e)
  end.

(** [raise e] *)
Definition raise {A} (e : exn) : M A := λ st, (st, Raised e).

(** [try: body  except Exception as e: handler e] *)
Definition try_except {A} (body : M A) (handler : exn -> M A) : M A := λ st,
  match body st with
  | (st', Returned a) => (st', Returned a)
  | (st', Raised e) => handler e st'
  end.

Definition emit (ev : event) : M unit := λ st,
  (mkState (the_world st) (self st) (trace st ++ [ev]), Returned tt).

Definition logger_info (msg : pystr) : M unit := emit (Log LvInfo msg).
Definition logger_error (msg : pystr) : M unit := emit (Log LvError msg).
Definition print (text : pystr) : M unit := emit (Stdout text).

Definition get_self : M BashSession := λ st, (st, Returned (self st)).

Definition modify_self (f : BashSession -> BashSession) : M unit := λ st,
  (mkState (the_world st) (f (self st)) (trace st), Returned tt).

Definition set_messages (ms : list Message) (s : BashSession) : BashSession :=
  mkBashSession ms (current_tool_calls s) (environment s) (no_agi s)
                (session_logger s).

Definition set_current_tool_calls (cs : list ToolCallRecord)
    (s : BashSession) : BashSession :=
  mkBashSession (messages s) cs (environment s) (no_agi s) (session_logger s).

Definition set_environment (env : gmap pystr pystr)
    (s : BashSession) : BashSession :=
  mkBashSession (messages s) (current_tool_calls s) env (no_agi s)
                (session_logger s).

Definition set_session_logger (l : SessionLogger)
    (s : BashSession) : BashSession :=
  mkBashSession (messages s) (current_tool_calls s) (environment s) (no_agi s) l.

(** [os.environ.copy()] *)
Definition os_environ_copy : M (gmap pystr pystr) := λ st,
  (st, Returned (os_environ (the_world st))).

(** [subprocess.run(command, ..., env=env, ...)]: the call is recorded,
    then the host decides what happens. *)
Definition run_subprocess (command : pyval) (env : gmap pystr pystr)
    : M CompletedProcess := λ st,
  let '(w, r) := subprocess_run command env (the_world st) in
  (mkState w (self st) (trace st ++ [Spawn command env]), r).

(** [self.client.beta.messages.create(messages=msgs, ...)] *)
Definition client_create (msgs : list Message) : M Response := λ st,
  let '(w, r) := messages_create msgs (the_world st) in
  (mkState w (self st) (trace st ++ [Create msgs]), r).

(** [v[:20]]: defined on [str]; the other values raise [TypeError]. *)
Definition slice_20 (v : pyval) : M pystr :=
  match v with
  | PStr s => mret (take 20 s)
  | _ => raise (mkExn "TypeError"
                  (u "'" ++ type_name v ++ u "' object is not subscriptable"))
  end.

Definition nl : pystr := [10%N].

(** *** [BashSession._handle_bash_command] *)

(** The leading emoji of the dry-run text, U+1F50D. *)
Definition dry_run_marker : pystr := 128269%N :: u " Dry Run:".

Definition dry_run_prefix : pystr :=
  dry_run_marker ++ u " Would execute command: ".

Definition handle_bash_command_body (tool_call : gmap string pyval)
    : M (gmap string pystr) :=
  let command := dict_get tool_call "command" PNone in
  let restart := dict_get tool_call "restart" (PBool false) in
  if truthy restart then
    env ← os_environ_copy;
    modify_self (set_environment env);;
    logger_info (u "Bash session restarted.");;
    mret {[ "content" := u "Bash session restarted." ]}
  else if negb (truthy command) then
    logger_error (u "No command provided to execute.");;
    mret {[ "error" := u "No command provided to execute." ]}
  else
    s ← get_self;
    if no_agi s then
      logger_info (u "Mock executing bash command: " ++ py_str command);;
      mret {[ "content" := dry_run_prefix ++ py_str command ]}
    else
      logger_info (u "Executing bash command: " ++ py_str command);;
      result ← run_subprocess command (environment s);
      let output := strip (stdout result) in
      let error_output := strip (stderr result) in
      (if nonempty output then
         head20 ← slice_20 command;
         logger_info (u "Command output:" ++ nl ++ nl ++ u "```output for '"
                      ++ head20 ++ u "...'" ++ nl ++ output ++ nl ++ u "```")
       else mret tt);;
      (if nonempty error_output then
         logger_error (u "Command error output:" ++ nl ++ nl
                       ++ u "```error for '" ++ py_str command ++ u "'" ++ nl
                       ++ error_output ++ nl ++ u "```")
       else mret tt);;
      if negb (returncode result =? 0) then
        let error_message :=
          if nonempty error_output then error_output
          else u "Command execution failed." in
        mret {[ "error" := error_message ]}
      else
        mret {[ "content" := output ]}.

Definition _handle_bash_command (tool_call : gmap string pyval)
    : M (gmap string pystr) :=
  try_except (handle_bash_command_body tool_call) (λ e,
    logger_error (u "Error in _handle_bash_command: " ++ exn_msg e);;
    logger_error (format_exc e);;
    mret {[ "error" := exn_msg e ]}).

(** *** [BashSession.process_tool_calls] *)

(** Truth value of [result.get(key)]: [None] when the key is absent. *)
Definition get_truthy (result : gmap string pystr) (key : string) : bool :=
  match result !! key with
  | Some s => nonempty s
  | None => false
  end.

(** The conversion of an executor result into the entry appended to
    [results].  [result["error"]] is read only where [result.get("error")]
    is truthy, so the key is there. *)
Definition make_tool_result (id : pystr) (result : gmap string pystr)
    : ToolResult :=
  let '(is_error, tool_result_content) :=
    if get_truthy result "error" then (true, [dict_get result "error" []])
    else (false, [dict_get result "content" []]) in
  {| tool_call_id := id;
     output := {| env_content := tool_result_content;
                  tool_use_id := id;
                  is_error := is_error |} |}.

(** The [for] loop, with the accumulator [results]. *)
Fixpoint process_tool_calls_from (tool_calls : list ContentBlock)
    (results : list ToolResult) : M (list ToolResult) :=
  match tool_calls with
  | [] => mret results
  | TextBlock _ :: rest => process_tool_calls_from rest results
  | ToolUseBlock id name input :: rest =>
      if bool_decide (name = u "bash") then
        logger_info (u "Bash tool call input: " ++ repr_input input);;
        modify_self (λ s, set_current_tool_calls
          (current_tool_calls s
             ++ [mkToolCallRecord (dict_get input "command" (PStr [])) id]) s);;
        result ← _handle_bash_command input;
        process_tool_calls_from rest (results ++ [make_tool_result id result])
      else process_tool_calls_from rest results
  end.

Definition process_tool_calls (tool_calls : list ContentBlock)
    : M (list ToolResult) :=
  modify_self (set_current_tool_calls []);;
  process_tool_calls_from tool_calls [].

(** *** [SessionLogger.log_total_cost] *)

Record CostSummary : Type := mkCostSummary {
  total_input_cost : pyfloat;
  total_output_cost : pyfloat;
  total_cost : pyfloat
}.

Definition cost_summary (l : SessionLogger) : CostSummary :=
  let cost_per_million_input_tokens := float_of_int 3 in
  let cost_per_million_output_tokens := float_of_int 15 in
  let total_input_cost :=
    float_mul (int_truediv (total_input_tokens l) 1000000)
              cost_per_million_input_tokens in
  let total_output_cost :=
    float_mul (int_truediv (total_output_tokens l) 1000000)
              cost_per_million_output_tokens in
  {| total_input_cost := total_input_cost;
     total_output_cost := total_output_cost;
     total_cost := float_add total_input_cost total_output_cost |}.

(** The five lines [log_total_cost] writes. *)
Definition total_cost_lines (l : SessionLogger) : list pystr :=
  let c := cost_summary l in
  [ u "Total input tokens: " ++ py_str (PInt (total_input_tokens l));
    u "Total output tokens: " ++ py_str (PInt (total_output_tokens l));
    u "Total input cost: $" ++ format_6f (total_input_cost c);
    u "Total output cost: $" ++ format_6f (total_output_cost c);
    u "Total cost: $" ++ format_6f (total_cost c) ].

Fixpoint log_lines (lines : list pystr) : M unit :=
  match lines with
  | [] => mret tt
  | line :: rest => logger_info line;; log_lines rest
  end.

Definition log_total_cost : M unit :=
  s ← get_self;
  log_lines (total_cost_lines (session_logger s)).

(** *** [BashSession.process_bash_command] *)

(** How the [while True] loop is left. *)
Inductive loop_exit : Type :=
| FinalAnswer (text : pystr)   (* the first [break], after [print] *)
| Aborted.                     (* the second [break], on a tool error *)

(** The conversion of [conversation_history] ([None] is the empty list). *)
Fixpoint history_to_api (conversation_history : list HistoryMsg)
    : list Message :=
  match conversation_history with
  | [] => []
  | msg :: rest =>
      if bool_decide (h_role msg ∈ [u "user"; u "assistant"]) then
        mkMessage (h_role msg) [TextParam (h_content msg)]
          :: history_to_api rest
      else history_to_api rest
  end.

(** One entry of [response_content]. *)
Definition block_param (block : ContentBlock) : BlockParam :=
  match block with
  | TextBlock text => TextParam text
  | _ => DumpParam block
  end.

(** [response.content[0].text] *)
Definition first_block_text (blocks : list ContentBlock) : M pystr :=
  match blocks with
  | [] => raise (mkExn "IndexError" (u "list index out of range"))
  | TextBlock text :: _ => mret text
  | ToolUseBlock _ _ _ :: _ =>
      raise (mkExn "AttributeError"
               (u "'BetaToolUseBlock' object has no attribute 'text'"))
  end.

Definition append_message (m : Message) : M unit :=
  modify_self (λ s, set_messages (messages s ++ [m]) s).

(** One iteration of the [while True] loop: [Some e] when it breaks. *)
Definition loop_round : M (option loop_exit) :=
  s ← get_self;
  response ← client_create (messages s);
  let input_tokens := usage_input_tokens response in
  let output_tokens := usage_output_tokens response in
  logger_info (u "API usage: input_tokens=" ++ py_str (PInt input_tokens)
               ++ u ", output_tokens=" ++ py_str (PInt output_tokens));;
  modify_self (λ s, set_session_logger
    (update_token_usage input_tokens output_tokens (session_logger s)) s);;
  logger_info (u "API response: " ++ repr_response response);;
  let response_content := block_param <$> resp_content response in
  append_message (mkMessage (u "assistant") response_content);;
  if bool_decide (stop_reason response ≠ u "tool_use") then
    text ← first_block_text (resp_content response);
    print text;;
    mret (Some (FinalAnswer text))
  else
    tool_results ← process_tool_calls (resp_content response);
    match tool_results with
    | first :: _ =>
        append_message (mkMessage (u "user") [ToolResultParam (output first)]);;
        if is_error (output first) then
          logger_error (u "Error: " ++ repr_content (env_content (output first)));;
          mret (Some Aborted)
        else mret None
    | [] => mret None
    end.

(** The loop, for at most [fuel] iterations; [None] when they are used up. *)
Fixpoint agent_loop (fuel : nat) : M (option loop_exit) :=
  match fuel with
  | O => mret None
  | S fuel' =>
      r ← loop_round;
      match r with
      | Some e => mret (Some e)
      | None => agent_loop fuel'
      end
  end.

Definition process_bash_command (fuel : nat) (bash_prompt : pystr)
    (conversation_history : list HistoryMsg) : M (option loop_exit) :=
  try_except
    (s ← get_self;
     let api_messages := history_to_api conversation_history in
     let bash_prompt :=
       if no_agi s then u "[DRY RUN MODE ENABLED] " ++ bash_prompt
       else bash_prompt in
     let current := mkMessage (u "user") [TextParam bash_prompt] in
     modify_self (set_messages (api_messages ++ [current]));;
     logger_info (u "User input: " ++ repr_message current);;
     r ← agent_loop fuel;
     match r with
     | Some e => log_total_cost;; mret (Some e)
     | None => mret None
     end)
    (λ e,
     logger_error (u "Error in process_bash_command: " ++ exn_msg e);;
     logger_error (format_exc e);;
     raise e).

End Program.

(** ** Vocabulary of the properties *)

Definition is_spawn (ev : event) : bool :=
  match ev with Spawn _ _ => true | _ => false end.

(** No subprocess is started by the events [evs]. *)
Definition no_spawn (evs : list event) : Prop :=
  Forall (λ ev, is_spawn ev = false) evs.

(** The message lists the provider was called with, in order. *)
Fixpoint provider_calls (evs : list event) : list (list Message) :=
  match evs with
  | [] => []
  | Create msgs :: rest => msgs :: provider_calls rest
  | _ :: rest => provider_calls rest
  end.

(** The text of the first text block of a response, in the words of the
    specification: the blocks are searched in order. *)
Fixpoint first_text_block (blocks : list ContentBlock) : option pystr :=
  match blocks with
  | [] => None
  | TextBlock text :: _ => Some text
  | ToolUseBlock _ _ _ :: rest => first_text_block rest
  end.

Section Vocabulary.
Context `{host : Host}.
Implicit Types (st : state) (tool_call input : gmap string pyval)
  (response : Response).

(** The log records of a completed command, after the call itself. *)
Definition output_logs (cmd out err : pystr) : list event :=
  (if nonempty (strip out) then
     [Log LvInfo (u "Command output:" ++ nl ++ nl ++ u "```output for '"
                  ++ take 20 cmd ++ u "...'" ++ nl ++ strip out ++ nl
                  ++ u "```")]
   else [])
  ++ (if nonempty (strip err) then
        [Log LvError (u "Command error output:" ++ nl ++ nl
                      ++ u "```error for '" ++ cmd ++ u "'" ++ nl
                      ++ strip err ++ nl ++ u "```")]
      else []).

(** The log records of the [except] clause. *)
Definition except_logs (e : exn) : list event :=
  [Log LvError (u "Error in _handle_bash_command: " ++ exn_msg e);
   Log LvError (format_exc e)].

(** The session after [self.current_tool_calls = []]. *)
Definition router_reset st : state :=
  mkState (the_world st) (set_current_tool_calls [] (self st)) (trace st).

(** The state in which the executor is entered for a bash invocation:
    its input is logged and recorded in [current_tool_calls]. *)
Definition router_enter st (id : pystr) input : state :=
  mkState (the_world st)
    (set_current_tool_calls
       (current_tool_calls (self st)
          ++ [mkToolCallRecord (dict_get input "command" (PStr [])) id])
       (self st))
    (trace st ++ [Log LvInfo (u "Bash tool call input: " ++ repr_input input)]).

(** Every entry the router adds is the conversion of what the executor
    returned for one bash invocation of the response. *)
Definition routed (blocks : list ContentBlock) (r : ToolResult) : Prop :=
  ∃ id input st1 st2 result,
    ToolUseBlock id (u "bash") input ∈ blocks
    ∧ _handle_bash_command input st1 = (st2, Returned result)
    ∧ r = make_tool_result id result.

(** The state in which [process_bash_command] enters the loop: the
    history converted, the user turn stored and logged. *)
Definition loop_entry st (bash_prompt : pystr)
    (conversation_history : list HistoryMsg) : state :=
  let bash_prompt :=
    if no_agi (self st) then u "[DRY RUN MODE ENABLED] " ++ bash_prompt
    else bash_prompt in
  let current := mkMessage (u "user") [TextParam bash_prompt] in
  mkState (the_world st)
    (set_messages (history_to_api conversation_history ++ [current]) (self st))
    (trace st ++ [Log LvInfo (u "User input: " ++ repr_message current)]).

(** The state once [log_total_cost] has written its lines. *)
Definition cost_logged st : state :=
  mkState (the_world st) (self st)
    (trace st ++ (Log LvInfo <$> total_cost_lines (session_logger (self st)))).

(** The state once the provider has answered [response]: usage recorded,
    the assistant turn appended. *)
Definition after_response st (w1 : world) response : state :=
  mkState w1
    (set_messages
       (messages (self st)
          ++ [mkMessage (u "assistant") (block_param <$> resp_content response)])
       (set_session_logger
          (update_token_usage (usage_input_tokens response)
             (usage_output_tokens response) (session_logger (self st)))
          (self st)))
    (trace st
       ++ [Create (messages (self st));
           Log LvInfo (u "API usage: input_tokens="
                       ++ py_str (PInt (usage_input_tokens response))
                       ++ u ", output_tokens="
                       ++ py_str (PInt (usage_output_tokens response)));
           Log LvInfo (u "API response: " ++ repr_response response)]).

(** The state once the first tool result is appended as a user turn. *)
Definition deliver st (first : ToolResult) : state :=
  mkState (the_world st)
    (set_messages
       (messages (self st)
          ++ [mkMessage (u "user") [ToolResultParam (output first)]])
       (self st))
    (trace st).

(** [rounds k st st']: [k] iterations that do not leave the loop lead
    from [st] to [st']. *)
Inductive rounds : nat → state → state → Prop :=
| rounds_O st : rounds 0 st st
| rounds_S k st st1 st2 :
    loop_round st = (st1, Returned None) →
    rounds k st1 st2 →
    rounds (S k) st st2.

(** C6, as stated: the same conclusion for every non-restart invocation
    in dry-run mode, whatever the command. *)
Definition dry_run_claim st tool_call : Prop :=
  no_agi (self st) = true →
  truthy (dict_get tool_call "restart" (PBool false)) = false →
  ∃ st' text,
    _handle_bash_command tool_call st = (st', Returned {[ "content" := text ]})
    ∧ dry_run_marker `prefix_of` text
    ∧ py_str (dict_get tool_call "command" PNone) `suffix_of` text
    ∧ environment (self st') = environment (self st)
    ∧ ∃ new, trace st' = trace st ++ new ∧ no_spawn new.

(** What C10 says of an entry [r] of the router's result for [blocks]. *)
Definition flag_follows_error (blocks : list ContentBlock) (r : ToolResult)
    : Prop :=
  ∃ id input st1 st2 result,
    ToolUseBlock id (u "bash") input ∈ blocks
    ∧ _handle_bash_command input st1 = (st2, Returned result)
    ∧ r = make_tool_result id result
    ∧ (is_error (output r) = true
       ↔ ∃ text : pystr, result !! "error" = Some text ∧ text ≠ [])
    ∧ (result = {[ "error" := [] ]} → output r = mkEnvelope [[]] id false).

(** What C3 says of the state [st'] a tool-use round ends in, when the
    router returned [results]: the last message is one user turn that
    holds every envelope of the list. *)
Definition whole_list_delivered (results : list ToolResult) st' : Prop :=
  last (messages (self st'))
  = Some (mkMessage (u "user") ((λ r, ToolResultParam (output r)) <$> results)).

End Vocabulary.

(** ** A scripted host

    A host whose shell is a given function of the command and whose
    provider replays a given list of responses; the examples below run
    the program on it. *)

Definition scripted_host (shell : pyval -> outcome CompletedProcess)
    (ambient : gmap pystr pystr) : Host :=
  {| world := list Response;
     os_environ := λ _, ambient;
     subprocess_run := λ command _ w, (w, shell command);
     messages_create := λ _ w,
       match w with
       | r :: w' => (w', Returned r)
       | [] => ([], Raised (mkExn "APIConnectionError" (u "Connection error.")))
       end;
     format_exc := λ e, u "Traceback (most recent call last):";
     repr_input := λ _, u "{...}";
     repr_message := λ _, u "{...}";
     repr_response := λ _, u "{...}";
     repr_content := λ _, u "[...]";
     (* no floats here: amounts are counted in millionths of a dollar, so
        [tokens / 1_000_000] dollars are [tokens] millionths *)
     pyfloat := Z;
     int_truediv := λ a b, a;
     float_of_int := λ n, n;
     float_mul := Z.mul;
     float_add := Z.add;
     format_6f := λ micro, py_str (PInt micro) |}.

(** What [/bin/bash -c command] does for the commands of the examples. *)
Definition bash (command : pyval) : outcome CompletedProcess :=
  match command with
  | PStr s =>
      if bool_decide (s = u "echo hi") then
        Returned (mkCompletedProcess 0 (u "hi" ++ nl) [])
      else if bool_decide (s = u "false") then
        Returned (mkCompletedProcess 1 [] [])
      else if bool_decide (s = u "ls /nonexistent") then
        Returned (mkCompletedProcess 2 []
          (u "ls: cannot access '/nonexistent': No such file or directory"
           ++ nl))
      else
        Returned (mkCompletedProcess 127 []
          (u "/bin/bash: line 1: " ++ s ++ u ": command not found" ++ nl))
  | v => Raised (mkExn "TypeError"
                   (u "'" ++ type_name v ++ u "' object is not iterable"))
  end.

(** A machine on which [/bin/bash] is missing. *)
Definition no_bash (command : pyval) : outcome CompletedProcess :=
  Raised (mkExn "FileNotFoundError"
            (u "[Errno 2] No such file or directory: '/bin/bash'")).

(** A machine that runs out of memory while the output is collected:
    [str(MemoryError())] is the empty string. *)
Definition out_of_memory (command : pyval) : outcome CompletedProcess :=
  Raised (mkExn "MemoryError" []).

Definition ambient_env : gmap pystr pystr :=
  {[ u "PATH" := u "/usr/bin:/bin"; u "HOME" := u "/root" ]}.

(** A session as [init_session] of main.py leaves it, after
    [BashSession(...)] and [set_logger]. *)
Definition new_session (env : gmap pystr pystr) (dry_mode : bool)
    : BashSession :=
  {| messages := [];
     current_tool_calls := [];
     environment := env;
     no_agi := dry_mode;
     session_logger := SessionLogger_init |}.

Definition start (H : Host) (w : @world H) (s : BashSession) : @state H :=
  mkState w s [].

(** A machine with a working [/bin/bash]. *)
Definition linux : Host := scripted_host bash ambient_env.

(** A machine without [/bin/bash]. *)
Definition broken_machine : Host := scripted_host no_bash ambient_env.

(** A machine without memory left for the output. *)
Definition full_machine : Host := scripted_host out_of_memory ambient_env.

Definition echo_hi : gmap string pyval := {[ "command" := PStr (u "echo hi") ]}.
Definition run_false : gmap string pyval := {[ "command" := PStr (u "false") ]}.
Definition empty_command : gmap string pyval := {[ "command" := PStr [] ]}.
Definition restart_and_command : gmap string pyval :=
  {[ "restart" := PBool true; "command" := PStr (u "echo hi") ]}.

Definition list_missing : gmap string pyval :=
  {[ "command" := PStr (u "ls /nonexistent") ]}.

(** A session whose environment was changed since the process started. *)
Definition stale_env : gmap pystr pystr := {[ u "PATH" := u "/opt/bin" ]}.

(** The session once [process_bash_command] has stored the user turn. *)
Definition prompted (env : gmap pystr pystr) (dry_mode : bool)
    (bash_prompt : pystr) : BashSession :=
  set_messages [mkMessage (u "user") [TextParam bash_prompt]]
    (new_session env dry_mode).

(** The provider asks for one command that fails. *)
Definition asks_false : Response :=
  mkResponse (u "tool_use")
    [TextBlock (u "I will run it."); ToolUseBlock (u "toolu_01") (u "bash") run_false]
    420 61.

(** The provider asks for two commands in one response. *)
Definition asks_two : Response :=
  mkResponse (u "tool_use")
    [ToolUseBlock (u "toolu_01") (u "bash") echo_hi;
     ToolUseBlock (u "toolu_02") (u "bash") list_missing]
    431 97.

(** The provider answers with a text block first. *)
Definition answers : Response :=
  mkResponse (u "end_turn") [TextBlock (u "The command printed hi.")] 502 12.

(** The provider is cut off at the token limit: a tool-use block, then
    text. *)
Definition cut_off : Response :=
  mkResponse (u "max_tokens")
    [ToolUseBlock (u "toolu_01") (u "bash") echo_hi; TextBlock (u "hi")]
    431 4096.

(** The provider ends its turn without any content block. *)
Definition says_nothing : Response := mkResponse (u "end_turn") [] 431 3.

(** A session that has paid for one response already. *)
Definition billed : BashSession :=
  set_session_logger
    {| total_input_tokens := 502; total_output_tokens := 12 |}
    (prompted ambient_env false (u "say hi")).

(** ** main.py: [process_bot_response] and the chat turn *)

(** The inner loop of [process_bot_response] over the blocks of a
    message: the text of the first block whose ["type"] is ["text"]. *)
Fixpoint first_text_param (blocks : list BlockParam) : option pystr :=
  match blocks with
  | [] => None
  | TextParam text :: _ => Some text
  | DumpParam (TextBlock text) :: _ => Some text
  | _ :: rest => first_text_param rest
  end.

(** The outer loop, over [reversed(bash_session.messages)]:
    [response_text] starts empty and the loop stops at the first
    assistant message. *)
Fixpoint last_assistant_text (reversed_messages : list Message) : pystr :=
  match reversed_messages with
  | [] => []
  | msg :: rest =>
      if bool_decide (role msg = u "assistant") then
        default [] (first_text_param (content msg))
      else last_assistant_text rest
  end.

(** [tool_calls_text], built over [bash_session.current_tool_calls];
    it starts with two newlines and U+1F527. *)
Definition tool_calls_text (calls : list ToolCallRecord) : pystr :=
  foldl (λ text tool_call,
           text ++ u "```bash" ++ nl ++ py_str (tc_command tool_call) ++ nl
                ++ u "```" ++ nl)
        (nl ++ nl ++ 128295%N :: u " Commands executed:" ++ nl) calls.

(** What [process_bot_response] returns for the session [s] once the run
    is over. *)
Definition reply_text (s : BashSession) : pystr :=
  let response_text := last_assistant_text (reverse (messages s)) in
  match current_tool_calls s with
  | [] => response_text
  | calls => tool_calls_text calls ++ nl ++ response_text
  end.

(** [docs_context], built over the uploaded documents: each is given by
    its name and by what [load_doc_content] returned for it, a [str] or
    [None]. *)
Definition docs_context (docs : list (pystr * pyval)) : pystr :=
  foldl (λ context doc,
           context ++ nl ++ u "Reference documentation from " ++ doc.1
                   ++ u ":" ++ nl ++ py_str doc.2 ++ nl)
        [] docs.

(** The message sent on, with the documents in front when there are
    any. *)
Definition with_docs_context (docs : list (pystr * pyval)) (message : pystr)
    : pystr :=
  let context := docs_context docs in
  if nonempty context then
    u "Using the following documentation as reference:" ++ nl ++ context
      ++ nl ++ nl ++ u "User query: " ++ message
  else message.

Section Main.
Context `{host : Host}.

(** [process_bot_response(message, history, state)], for the uploaded
    documents [docs] once loaded; [None] when the bound [fuel] on the
    rounds of the loop is used up. *)
Definition process_bot_response (fuel : nat) (docs : list (pystr * pyval))
    (message : pystr) (history : list HistoryMsg) : M (option pystr) :=
  r ← process_bash_command fuel (with_docs_context docs message) history;
  match r with
  | None => mret None
  | Some _ => s ← get_self; mret (Some (reply_text s))
  end.

(** What [main] does with a prompt typed in the chat input, up to the
    saving of the history: the prompt is appended to the history, the
    reply is computed from the prompt and that history, and appended. *)
Definition chat_turn (fuel : nat) (docs : list (pystr * pyval))
    (prompt : pystr) (history : list HistoryMsg)
    : M (option (list HistoryMsg)) :=
  let history := history ++ [mkHistoryMsg (u "user") prompt] in
  r ← process_bot_response fuel docs prompt history;
  match r with
  | None => mret None
  | Some response =>
      mret (Some (history ++ [mkHistoryMsg (u "assistant") response]))
  end.

End Main.

(** ** main.py: the stored conversations

    The directory [HISTORY_DIR] is modelled by what the program reads of
    it: the names [os.listdir] returns, in the order it returns them, the
    JSON value held by each file that exists (a history is a list of
    objects with string values), and the creation time of a file in ISO
    format. *)

Record HistoryDir : Type := mkHistoryDir {
  listing : list pystr;
  files : gmap pystr (list (gmap string pystr));
  ctime_iso : pystr -> pystr
}.

(** The name of the file of a conversation: [f"{conversation_id}.json"]. *)
Definition history_file (conversation_id : pystr) : pystr :=
  conversation_id ++ u ".json".

(** [load_conversation_history] *)
Definition load_conversation_history (dir : HistoryDir)
    (conversation_id : pystr) : list (gmap string pystr) :=
  match files dir !! history_file conversation_id with
  | Some history => history
  | None => []
  end.

(** The first statement of [save_conversation_history]: the first entry
    gets the time [now] as ["timestamp"] unless it has one. *)
Definition stamp (now : pystr) (history : list (gmap string pystr))
    : list (gmap string pystr) :=
  match history with
  | first :: rest =>
      match first !! "timestamp" with
      | None => <["timestamp" := now]> first :: rest
      | Some _ => history
      end
  | [] => []
  end.

(** [with open(name, 'w') as f: json.dump(history, f)] in the directory,
    when the file can be written: the file holds [history] and its time
    is [written], the time of the writing.  A file that was not there is
    created, and [os.listdir] returns its name from then on, at the place
    [place] the file system gives it among the names it returned before;
    the name of a file that was there stays where it is. *)
Definition write_json (place : nat) (written : pystr) (dir : HistoryDir)
    (name : pystr) (history : list (gmap string pystr)) : HistoryDir :=
  {| listing :=
       if bool_decide (name ∈ listing dir) then listing dir
       else take place (listing dir) ++ name :: drop place (listing dir);
     files := <[name := history]> (files dir);
     ctime_iso := λ filename,
       if bool_decide (filename = name) then written
       else ctime_iso dir filename |}.

(** [save_conversation_history], at the time [now]: the directory after
    it.  The history of the caller is the stamped one as well, the first
    entry being changed in place. *)
Definition save_conversation_history (now : pystr) (place : nat)
    (written : pystr) (dir : HistoryDir) (conversation_id : pystr)
    (history : list (gmap string pystr)) : HistoryDir :=
  write_json place written dir (history_file conversation_id)
    (stamp now history).

(** [s.endswith(suffix)] *)
Definition endswith (s suffix : pystr) : bool :=
  bool_decide (drop (length s - length suffix) s = suffix).

(** [a <= b] on [str]: the order of the code points, position by
    position. *)
Fixpoint str_le (a b : pystr) : bool :=
  match a, b with
  | [], _ => true
  | _ :: _, [] => false
  | x :: a', y :: b' =>
      if (x <? y)%N then true
      else if (y <? x)%N then false
      else str_le a' b'
  end.

(** An element of [conversations]: identifier, first message, time. *)
Definition Conversation : Type := pystr * pystr * pystr.

(** The loop of [get_conversation_list] over the names of the
    directory; [history[0]["content"]] raises [KeyError] when the first
    entry has no content. *)
Fixpoint collect_conversations (dir : HistoryDir) (names : list pystr)
    : outcome (list Conversation) :=
  match names with
  | [] => Returned []
  | filename :: rest =>
      if endswith filename (u ".json") then
        let conv_id := take (length filename - 5) filename in
        match load_conversation_history dir conv_id with
        | [] => collect_conversations dir rest
        | first :: _ =>
            match first !! "content" with
            | None => Raised (mkExn "KeyError" (u "'content'"))
            | Some first_msg =>
                let timestamp :=
                  default (ctime_iso dir filename) (first !! "timestamp") in
                match collect_conversations dir rest with
                | Returned conversations =>
                    Returned ((conv_id, first_msg, timestamp) :: conversations)
                | Raised e => Raised e
                end
            end
        end
      else collect_conversations dir rest
  end.

(** [conversations.sort(key=lambda x: x[2], reverse=True)]: the sort is
    stable, also with [reverse=True]; an element goes in front of the
    first one that is not newer. *)
Fixpoint insert_newest (c : Conversation) (sorted : list Conversation)
    : list Conversation :=
  match sorted with
  | [] => [c]
  | d :: rest =>
      if str_le d.2 c.2 then c :: d :: rest
      else d :: insert_newest c rest
  end.

Definition sort_newest_first (conversations : list Conversation)
    : list Conversation :=
  foldr insert_newest [] conversations.

(** [get_conversation_list] *)
Definition get_conversation_list (dir : HistoryDir)
    : outcome (list (pystr * pystr)) :=
  match collect_conversations dir (listing dir) with
  | Returned conversations =>
      Returned ((λ c : Conversation, (c.1.1, c.1.2))
                  <$> sort_newest_first conversations)
  | Raised e => Raised e
  end.

(** [c] stands before [d] in a list sorted with the newest first. *)
Definition not_older (c d : Conversation) : Prop := str_le d.2 c.2 = true.

(** ** Vocabulary of the further properties *)

Definition is_log (ev : event) : bool :=
  match ev with Log _ _ => true | _ => false end.

(** The subprocess calls among the events [evs], in order: the command
    and the environment each was given. *)
Fixpoint spawns (evs : list event) : list (pyval * gmap pystr pystr) :=
  match evs with
  | [] => []
  | Spawn command env :: rest => (command, env) :: spawns rest
  | _ :: rest => spawns rest
  end.

(** The texts printed among the events [evs], in order. *)
Fixpoint printed (evs : list event) : list pystr :=
  match evs with
  | [] => []
  | Stdout text :: rest => text :: printed rest
  | _ :: rest => printed rest
  end.

(** The bash invocations of a response, in order: identifier and input. *)
Fixpoint bash_calls (blocks : list ContentBlock)
    : list (pystr * gmap string pyval) :=
  match blocks with
  | [] => []
  | TextBlock _ :: rest => bash_calls rest
  | ToolUseBlock id name input :: rest =>
      if bool_decide (name = u "bash") then (id, input) :: bash_calls rest
      else bash_calls rest
  end.

(** The entry of [current_tool_calls] for a bash invocation. *)
Definition call_record (call : pystr * gmap string pyval) : ToolCallRecord :=
  mkToolCallRecord (dict_get call.2 "command" (PStr [])) call.1.

(** Whether the executor reaches [subprocess.run] for [tool_call] in the
    session [s]. *)
Definition runs_subprocess (s : BashSession) (tool_call : gmap string pyval)
    : bool :=
  negb (truthy (dict_get tool_call "restart" (PBool false)))
  && truthy (dict_get tool_call "command" PNone)
  && negb (no_agi s).

(** The turns a round appends once the provider has answered: the
    assistant turn, then the first tool result if tools were asked for
    and the router returned any. *)
Definition round_turns (response : Response) (results : list ToolResult)
    : list Message :=
  mkMessage (u "assistant") (block_param <$> resp_content response)
  :: (if bool_decide (stop_reason response ≠ u "tool_use") then []
      else match results with
           | first :: _ => [mkMessage (u "user") [ToolResultParam (output first)]]
           | [] => []
           end).

(** A response that asks for a tool this program does not run. *)
Definition editor_call : gmap string pyval :=
  {[ "command" := PStr (u "view"); "path" := PStr (u "/tmp/notes.txt") ]}.

Definition asks_editor : Response :=
  mkResponse (u "tool_use")
    [TextBlock (u "Let me look at the file.");
     ToolUseBlock (u "toolu_01") (u "str_replace_editor") editor_call]
    388 54.

(** An invocation that only asks for a restart, and one without any
    entry. *)
Definition restart_only : gmap string pyval := {[ "restart" := PBool true ]}.
Definition no_entries : gmap string pyval := ∅.

(** The user turn [process_bash_command] adds for [bash_prompt]; in
    dry-run mode the prompt is tagged. *)
Definition current_turn (dry_mode : bool) (bash_prompt : pystr) : Message :=
  mkMessage (u "user")
    [TextParam (if dry_mode then u "[DRY RUN MODE ENABLED] " ++ bash_prompt
                else bash_prompt)].

(** A stored conversation with an entry that is neither of the user nor
    of the assistant. *)
Definition stored_history : list HistoryMsg :=
  [mkHistoryMsg (u "user") (u "list the files");
   mkHistoryMsg (u "system") (u "conversation restored");
   mkHistoryMsg (u "assistant") (u "There are two files.")].

(** A session whose last run executed a command: the router left it in
    [current_tool_calls]. *)
Definition session_after_echo : BashSession :=
  set_current_tool_calls [mkToolCallRecord (PStr (u "echo hi")) (u "toolu_00")]
    (new_session ambient_env false).

(** An uploaded document, as loaded. *)
Definition readme_doc : pystr * pyval :=
  (u "README.md", PStr (u "usage: tool [options]")).

(** A history directory: two conversations, one of them saved before
    timestamps were written, an empty one and a file that is no
    conversation. *)
Definition chat_a : list (gmap string pystr) :=
  [ {[ "role" := u "user"; "content" := u "first chat";
       "timestamp" := u "2024-11-02T10:00:00" ]};
    {[ "role" := u "assistant"; "content" := u "hello" ]} ].

Definition chat_b : list (gmap string pystr) :=
  [ {[ "role" := u "user"; "content" := u "older chat" ]} ].

Definition sample_dir : HistoryDir :=
  {| listing := [u "b.json"; u "notes.txt"; u "a.json"; u "empty.json"];
     files := {[ u "a.json" := chat_a; u "b.json" := chat_b;
                 u "empty.json" := [] ]};
     ctime_iso := λ _, u "2024-11-01T09:00:00" |}.

Definition new_topic : gmap string pystr :=
  {[ "role" := u "user"; "content" := u "new topic" ]}.

(** ** Trimming, and subprocesses whose output is no text *)

(** [t] is [s] without the whitespace at its two ends, in the words of
    the specification: [s] is [t] between two runs of whitespace, and [t]
    neither starts nor ends with whitespace. *)
Definition trimmed (s t : pystr) : Prop :=
  ∃ pre post,
    s = pre ++ t ++ post
    ∧ Forall (λ c, isspace c = true) pre
    ∧ Forall (λ c, isspace c = true) post
    ∧ (∀ c, head t = Some c → isspace c = false)
    ∧ (∀ c, last t = Some c → isspace c = false).

(** What a subprocess leaves when it ends: its exit status and, for each
    pipe, what reading it in text mode gives, the text or the
    [UnicodeDecodeError] of the codec when the bytes are no text. *)
Record Exited : Type := mkExited {
  exit_status : Z;
  stdout_read : outcome pystr;
  stderr_read : outcome pystr
}.

(** [subprocess.run(..., text=True)] for a subprocess that ended so: the
    two pipes are decoded, stdout first, and the first failure is
    raised. *)
Definition completed (p : Exited) : outcome CompletedProcess :=
  match stdout_read p with
  | Raised e => Raised e
  | Returned out =>
      match stderr_read p with
      | Raised e => Raised e
      | Returned err => Returned (mkCompletedProcess (exit_status p) out err)
      end
  end.

(** A scripted host whose shell is given by what each command leaves
    when it ends. *)
Definition process_host (shell : pystr -> Exited)
    (ambient : gmap pystr pystr) : Host :=
  scripted_host
    (λ command,
       match command with
       | PStr s => completed (shell s)
       | v => Raised (mkExn "TypeError"
                        (u "'" ++ type_name v ++ u "' object is not iterable"))
       end)
    ambient.

(** The exception of the UTF-8 codec for the byte 0xff. *)
Definition cannot_decode : exn :=
  mkExn "UnicodeDecodeError"
    (u "'utf-8' codec can't decode byte 0xff in position 0: invalid start byte").

(** What [/bin/bash -c command] leaves for two commands that write the
    byte 0xff to one of their pipes. *)
Definition noisy_bash (command : pystr) : Exited :=
  if bool_decide (command = u "echo hi; printf '\377' >&2") then
    mkExited 0 (Returned (u "hi" ++ nl)) (Raised cannot_decode)
  else if bool_decide (command = u "printf '\377'; echo boom >&2; exit 3") then
    mkExited 3 (Raised cannot_decode) (Returned (u "boom" ++ nl))
  else
    mkExited 127 (Returned [])
      (Returned (u "/bin/bash: line 1: " ++ command
                 ++ u ": command not found" ++ nl)).

Definition echo_and_noise : gmap string pyval :=
  {[ "command" := PStr (u "echo hi; printf '\377' >&2") ]}.

Definition noise_and_boom : gmap string pyval :=
  {[ "command" := PStr (u "printf '\377'; echo boom >&2; exit 3") ]}.

(** C1, as stated, on a host given by what its subprocesses leave: when
    the subprocess of a non-restart invocation outside dry-run mode ends
    with status 0 and wrote [out] to stdout, the executor returns the
    content result with [out] trimmed and the envelope is no error. *)
Definition exit_zero_claim (shell : pystr -> Exited)
    (ambient : gmap pystr pystr) (st : @state (process_host shell ambient))
    (id : pystr) (tool_call : gmap string pyval) (cmd out : pystr) : Prop :=
  truthy (dict_get tool_call "restart" (PBool false)) = false →
  no_agi (self st) = false →
  tool_call !! "command" = Some (PStr cmd) →
  cmd ≠ [] →
  exit_status (shell cmd) = 0 →
  stdout_read (shell cmd) = Returned out →
  ∃ text,
    trimmed out text
    ∧ (∃ st', _handle_bash_command tool_call st
              = (st', Returned {[ "content" := text ]}))
    ∧ (∃ st', process_tool_calls [ToolUseBlock id (u "bash") tool_call] st
              = (st', Returned [mkToolResult id (mkEnvelope [text] id false)])).

(** C2, as stated, on such a host: when the subprocess ends with another
    status and wrote [err] to stderr, the executor returns the error
    result with [err] trimmed, or the generic message when that is
    empty, and the envelope is an error. *)
Definition nonzero_exit_claim (shell : pystr -> Exited)
    (ambient : gmap pystr pystr) (st : @state (process_host shell ambient))
    (id : pystr) (tool_call : gmap string pyval) (cmd err : pystr) : Prop :=
  truthy (dict_get tool_call "restart" (PBool false)) = false →
  no_agi (self st) = false →
  tool_call !! "command" = Some (PStr cmd) →
  cmd ≠ [] →
  exit_status (shell cmd) ≠ 0 →
  stderr_read (shell cmd) = Returned err →
  ∃ error_output text,
    trimmed err error_output
    ∧ text = (if nonempty error_output then error_output
              else u "Command execution failed.")
    ∧ (∃ st', _handle_bash_command tool_call st
              = (st', Returned {[ "error" := text ]}))
    ∧ (∃ st', process_tool_calls [ToolUseBlock id (u "bash") tool_call] st
              = (st', Returned [mkToolResult id (mkEnvelope [text] id true)])).

(** * Properties *)

(** ** [str.strip] *)

Lemma lstrip_spec (s : pystr) :
  ∃ pre,
    s = pre ++ lstrip s
    ∧ Forall (λ c, isspace c = true) pre
    ∧ (∀ c, head (lstrip s) = Some c → isspace c = false).
Proof.
  induction s as [|c s (pre & Hs & Hpre & Hhead)]; simpl.
  { exists []. by repeat split. }
  destruct (isspace c) eqn:Hc.
  - exists (c :: pre). split; [simpl; by f_equal |]. split; [by constructor |].
    done.
  - exists []. split; [done |]. split; [constructor |].
    simpl. by intros c' [= <-].
Qed.

(** [strip] removes the whitespace at the two ends, and nothing else. *)
Lemma strip_trimmed (s : pystr) : trimmed s (strip s).
Proof.
  unfold strip, rstrip.
  destruct (lstrip_spec (reverse s)) as (post & Hs & Hpost & Hlast).
  set (middle := lstrip (reverse s)) in *.
  destruct (lstrip_spec (reverse middle)) as (pre & Hmiddle & Hpre & Hhead).
  exists pre, (reverse post).
  assert (Hs' : s = reverse middle ++ reverse post).
  { rewrite <- reverse_app, <- Hs. by rewrite reverse_involutive. }
  split; [by rewrite app_assoc, <- Hmiddle |].
  split; [done |]. split; [by apply Forall_reverse |]. split; [done |].
  intros c Hc.
  destruct (lstrip (reverse middle)) as [|c0 t] eqn:Ht; [done |].
  apply Hlast.
  rewrite <- (reverse_involutive middle), Hmiddle, reverse_app.
  rewrite <- head_reverse in Hc.
  destruct (reverse (c0 :: t)) as [|c1 t1] eqn:Hrev.
  { apply (f_equal length) in Hrev. rewrite length_reverse in Hrev.
    discriminate. }
  simpl in *. done.
Qed.

Opaque u strip.

Lemma nonempty_true (s : pystr) : s ≠ [] → nonempty s = true.
Proof. by destruct s. Qed.

Lemma nonempty_false (s : pystr) : nonempty s = false → s = [].
Proof. by destruct s. Qed.

Example strip_trailing_newline : strip (u "hi" ++ nl) = u "hi".
Proof. by vm_compute. Qed.

Example strip_both_sides :
  strip (9%N :: u "  ls -l " ++ [160%N; 10%N]) = u "ls -l".
Proof. by vm_compute. Qed.

Example strip_blank : strip (u "  " ++ nl) = [].
Proof. by vm_compute. Qed.

Example py_str_int : py_str (PInt (-42)) = u "-42" ∧ py_str (PInt 0) = u "0".
Proof. by vm_compute. Qed.

(** Unfolds the primitive operations of [M] met in a goal. *)
Ltac mrun :=
  unfold mbind, M_bind, mret, M_ret, get_self, modify_self, append_message,
    logger_info, logger_error, print, emit, os_environ_copy, run_subprocess,
    client_create, raise;
  simpl.

(** ** The command executor *)

Section Executor.
Context `{host : Host}.
Implicit Types (st : state) (tool_call : gmap string pyval).

Lemma handle_restart st tool_call :
  truthy (dict_get tool_call "restart" (PBool false)) = true →
  _handle_bash_command tool_call st
  = (mkState (the_world st)
       (set_environment (os_environ (the_world st)) (self st))
       (trace st ++ [Log LvInfo (u "Bash session restarted.")]),
     Returned {[ "content" := u "Bash session restarted." ]}).
Proof.
  intros Hrestart.
  unfold _handle_bash_command, try_except, handle_bash_command_body.
  rewrite Hrestart. reflexivity.
Qed.

Lemma handle_no_command st tool_call :
  truthy (dict_get tool_call "restart" (PBool false)) = false →
  truthy (dict_get tool_call "command" PNone) = false →
  _handle_bash_command tool_call st
  = (mkState (the_world st) (self st)
       (trace st ++ [Log LvError (u "No command provided to execute.")]),
     Returned {[ "error" := u "No command provided to execute." ]}).
Proof.
  intros Hrestart Hcommand.
  unfold _handle_bash_command, try_except, handle_bash_command_body.
  rewrite Hrestart, Hcommand. reflexivity.
Qed.

Lemma handle_dry_run st tool_call :
  truthy (dict_get tool_call "restart" (PBool false)) = false →
  truthy (dict_get tool_call "command" PNone) = true →
  no_agi (self st) = true →
  _handle_bash_command tool_call st
  = (mkState (the_world st) (self st)
       (trace st ++ [Log LvInfo (u "Mock executing bash command: "
                     ++ py_str (dict_get tool_call "command" PNone))]),
     Returned {[ "content" :=
       dry_run_prefix ++ py_str (dict_get tool_call "command" PNone) ]}).
Proof.
  intros Hrestart Hcommand Hdry.
  unfold _handle_bash_command, try_except, handle_bash_command_body.
  rewrite Hrestart, Hcommand. mrun. rewrite Hdry. reflexivity.
Qed.

Lemma handle_completed st tool_call cmd rc out err (w' : world) :
  truthy (dict_get tool_call "restart" (PBool false)) = false →
  no_agi (self st) = false →
  tool_call !! "command" = Some (PStr cmd) →
  cmd ≠ [] →
  subprocess_run (PStr cmd) (environment (self st)) (the_world st)
    = (w', Returned (mkCompletedProcess rc out err)) →
  _handle_bash_command tool_call st
  = (mkState w' (self st)
       (trace st ++ [Log LvInfo (u "Executing bash command: " ++ cmd);
                     Spawn (PStr cmd) (environment (self st))]
                 ++ output_logs cmd out err),
     Returned
       (if negb (rc =? 0) then
          {[ "error" := if nonempty (strip err) then strip err
                        else u "Command execution failed." ]}
        else {[ "content" := strip out ]})).
Proof.
  intros Hrestart Hdry Hcmd Hne Hrun.
  assert (Hc : dict_get tool_call "command" PNone = PStr cmd)
    by (unfold dict_get; by rewrite Hcmd).
  unfold _handle_bash_command, try_except, handle_bash_command_body.
  rewrite Hrestart, Hc. simpl. rewrite (nonempty_true _ Hne). simpl.
  mrun. rewrite Hdry. simpl. rewrite Hrun. simpl.
  unfold output_logs.
  destruct (nonempty (strip out)), (nonempty (strip err)); simpl;
    destruct (rc =? 0); simpl; rewrite <- ?app_assoc; reflexivity.
Qed.

Lemma handle_spawn_raised st tool_call e (w' : world) :
  truthy (dict_get tool_call "restart" (PBool false)) = false →
  no_agi (self st) = false →
  truthy (dict_get tool_call "command" PNone) = true →
  subprocess_run (dict_get tool_call "command" PNone)
    (environment (self st)) (the_world st) = (w', Raised e) →
  _handle_bash_command tool_call st
  = (mkState w' (self st)
       (trace st
        ++ [Log LvInfo (u "Executing bash command: "
                        ++ py_str (dict_get tool_call "command" PNone));
            Spawn (dict_get tool_call "command" PNone) (environment (self st))]
        ++ except_logs e),
     Returned {[ "error" := exn_msg e ]}).
Proof.
  intros Hrestart Hdry Hcommand Hrun.
  unfold _handle_bash_command, try_except, handle_bash_command_body.
  rewrite Hrestart, Hcommand. mrun. rewrite Hdry. simpl. rewrite Hrun. simpl.
  rewrite <- ?app_assoc. reflexivity.
Qed.

(** Whatever the body does, the handler turns it into a returned result. *)
Lemma handle_returns st tool_call :
  ∃ st' result,
    _handle_bash_command tool_call st = (st', Returned result)
    ∧ ∀ st1 e, handle_bash_command_body tool_call st = (st1, Raised e) →
               result = {[ "error" := exn_msg e ]}
                 ∧ trace st' = trace st1 ++ except_logs e.
Proof.
  unfold _handle_bash_command, try_except.
  destruct (handle_bash_command_body tool_call st) as [st1 [result|e]] eqn:Hb.
  - exists st1, result. split; [reflexivity | intros ?? [=]].
  - eexists _, _. split; [reflexivity |].
    intros st2 e' [= <- <-]. split; [reflexivity |].
    mrun. by rewrite <- app_assoc.
Qed.

End Executor.

(** ** The tool-call router *)

Section Router.
Context `{host : Host}.
Implicit Types (st : state) (input : gmap string pyval).

Lemma make_tool_result_content id (text : pystr) :
  make_tool_result id {[ "content" := text ]}
  = mkToolResult id (mkEnvelope [text] id false).
Proof.
  unfold make_tool_result, get_truthy, dict_get.
  rewrite lookup_singleton_ne by discriminate.
  by rewrite lookup_singleton_eq.
Qed.

Lemma make_tool_result_error id (text : pystr) :
  make_tool_result id {[ "error" := text ]}
  = mkToolResult id (mkEnvelope [text] id (nonempty text)).
Proof.
  unfold make_tool_result, get_truthy, dict_get.
  rewrite lookup_singleton_eq.
  destruct (nonempty text) eqn:Hne; simpl.
  - reflexivity.
  - rewrite lookup_singleton_ne by discriminate.
    by rewrite (nonempty_false _ Hne).
Qed.

Lemma process_from_bash id input rest acc st :
  process_tool_calls_from (ToolUseBlock id (u "bash") input :: rest) acc st
  = match _handle_bash_command input (router_enter st id input) with
    | (st', Returned result) =>
        process_tool_calls_from rest (acc ++ [make_tool_result id result]) st'
    | (st', Raised e) => (st', Raised e)
    end.
Proof.
  simpl. rewrite bool_decide_eq_true_2 by reflexivity. reflexivity.
Qed.

Lemma process_from_other id name input rest acc st :
  name ≠ u "bash" →
  process_tool_calls_from (ToolUseBlock id name input :: rest) acc st
  = process_tool_calls_from rest acc st.
Proof. intros Hne. simpl. by rewrite bool_decide_eq_false_2. Qed.

Lemma process_single_bash id input st :
  process_tool_calls [ToolUseBlock id (u "bash") input] st
  = match _handle_bash_command input
            (router_enter (router_reset st) id input) with
    | (st', Returned result) => (st', Returned [make_tool_result id result])
    | (st', Raised e) => (st', Raised e)
    end.
Proof.
  unfold process_tool_calls.
  change ((modify_self (set_current_tool_calls []);;
           process_tool_calls_from [ToolUseBlock id (u "bash") input] []) st)
    with (process_tool_calls_from [ToolUseBlock id (u "bash") input] []
            (router_reset st)).
  rewrite process_from_bash.
  by destruct (_handle_bash_command _ _) as [st' [result|e]].
Qed.

Lemma process_from_routed blocks : ∀ acc st st' results,
  process_tool_calls_from blocks acc st = (st', Returned results) →
  ∃ new, results = acc ++ new ∧ Forall (routed blocks) new.
Proof.
  induction blocks as [|block blocks IH]; intros acc st st' results Hrun.
  - injection Hrun as <- <-. exists []. by rewrite app_nil_r.
  - assert (Hweaken : ∀ new, Forall (routed blocks) new →
                             Forall (routed (block :: blocks)) new).
    { intros new Hnew. eapply Forall_impl; [exact Hnew |].
      intros r (id & input & st1 & st2 & result & Hin & Hrest).
      exists id, input, st1, st2, result. split; [by right | done]. }
    destruct block as [text|id name input].
    + simpl in Hrun. destruct (IH _ _ _ _ Hrun) as (new & -> & Hnew). eauto.
    + destruct (decide (name = u "bash")) as [->|Hne].
      * rewrite process_from_bash in Hrun.
        destruct (_handle_bash_command input _) as [st1 [result|e]] eqn:Hh;
          [|discriminate].
        destruct (IH _ _ _ _ Hrun) as (new & -> & Hnew).
        exists (make_tool_result id result :: new).
        split; [by rewrite <- app_assoc |].
        constructor; [|by apply Hweaken].
        eexists id, input, _, _, result. split; [by left | done].
      * rewrite process_from_other in Hrun by done.
        destruct (IH _ _ _ _ Hrun) as (new & -> & Hnew). eauto.
Qed.

Lemma process_tool_calls_routed blocks st st' results :
  process_tool_calls blocks st = (st', Returned results) →
  Forall (routed blocks) results.
Proof.
  intros Hrun.
  destruct (process_from_routed blocks [] (router_reset st) st' results Hrun)
    as (new & -> & Hnew).
  done.
Qed.

End Router.

(** ** The agent loop *)

Section Loop.
Context `{host : Host}.
Implicit Types (st : state) (response : Response).

Lemma loop_round_create_raised st (w1 : world) e :
  messages_create (messages (self st)) (the_world st) = (w1, Raised e) →
  loop_round st
  = (mkState w1 (self st) (trace st ++ [Create (messages (self st))]),
     Raised e).
Proof. intros Hcreate. unfold loop_round. mrun. by rewrite Hcreate. Qed.

Lemma loop_round_final st (w1 : world) response :
  messages_create (messages (self st)) (the_world st)
    = (w1, Returned response) →
  stop_reason response ≠ u "tool_use" →
  loop_round st
  = match first_block_text (resp_content response)
            (after_response st w1 response) with
    | (st1, Returned text) =>
        (mkState (the_world st1) (self st1) (trace st1 ++ [Stdout text]),
         Returned (Some (FinalAnswer text)))
    | (st1, Raised e) => (st1, Raised e)
    end.
Proof.
  intros Hcreate Hstop. unfold loop_round. mrun. rewrite Hcreate. simpl.
  rewrite bool_decide_eq_true_2 by done.
  unfold after_response. simpl. rewrite <- !app_assoc. simpl.
  by destruct (first_block_text _ _) as [st1 [text|e]].
Qed.

Lemma loop_round_tools st (w1 : world) response :
  messages_create (messages (self st)) (the_world st)
    = (w1, Returned response) →
  stop_reason response = u "tool_use" →
  loop_round st
  = match process_tool_calls (resp_content response)
            (after_response st w1 response) with
    | (st2, Returned (first :: _)) =>
        if is_error (output first) then
          (mkState (the_world st2) (self (deliver st2 first))
             (trace st2 ++ [Log LvError
                (u "Error: " ++ repr_content (env_content (output first)))]),
           Returned (Some Aborted))
        else (deliver st2 first, Returned None)
    | (st2, Returned []) => (st2, Returned None)
    | (st2, Raised e) => (st2, Raised e)
    end.
Proof.
  intros Hcreate Hstop. unfold loop_round. mrun. rewrite Hcreate. simpl.
  rewrite bool_decide_eq_false_2 by (intros Hne; by apply Hne).
  unfold after_response. simpl. rewrite <- !app_assoc. simpl.
  destruct (process_tool_calls _ _) as [st2 [[|first others]|e]];
    [reflexivity | | reflexivity].
  by destruct (is_error (output first)).
Qed.

Lemma agent_loop_rounds k st0 st fuel :
  rounds k st0 st → agent_loop (k + fuel) st0 = agent_loop fuel st.
Proof.
  induction 1 as [st | k st st1 st2 Hround _ IH]; [reflexivity |].
  simpl. unfold mbind, M_bind at 1. by rewrite Hround.
Qed.

Lemma agent_loop_exit st st' exit fuel :
  loop_round st = (st', Returned (Some exit)) →
  agent_loop (S fuel) st = (st', Returned (Some exit)).
Proof. intros Hround. simpl. unfold mbind, M_bind. by rewrite Hround. Qed.

Lemma agent_loop_raised st st' e fuel :
  loop_round st = (st', Raised e) →
  agent_loop (S fuel) st = (st', Raised e).
Proof. intros Hround. simpl. unfold mbind, M_bind. by rewrite Hround. Qed.

Lemma log_lines_trace lines : ∀ st,
  log_lines lines st
  = (mkState (the_world st) (self st) (trace st ++ (Log LvInfo <$> lines)),
     Returned tt).
Proof.
  induction lines as [|line lines IH]; intros st; simpl.
  - rewrite app_nil_r. by destruct st.
  - mrun. rewrite IH. simpl. by rewrite <- app_assoc.
Qed.

Lemma log_total_cost_trace st :
  log_total_cost st = (cost_logged st, Returned tt).
Proof.
  unfold log_total_cost, mbind, M_bind, get_self.
  by rewrite log_lines_trace.
Qed.

(** A run that leaves the loop ends with the cost lines and nothing else. *)
Lemma process_bash_command_exit fuel bash_prompt conversation_history st st'
    exit :
  agent_loop fuel (loop_entry st bash_prompt conversation_history)
    = (st', Returned (Some exit)) →
  process_bash_command fuel bash_prompt conversation_history st
  = (cost_logged st', Returned (Some exit)).
Proof.
  intros Hloop.
  unfold process_bash_command, try_except, mbind, M_bind, mret, M_ret,
    get_self, modify_self, logger_info, emit.
  cbn -[log_total_cost].
  unfold loop_entry in Hloop. simpl in Hloop. rewrite Hloop.
  by rewrite log_total_cost_trace.
Qed.

(** A run whose loop raises logs the exception and raises it again. *)
Lemma process_bash_command_raised fuel bash_prompt conversation_history st st'
    e :
  agent_loop fuel (loop_entry st bash_prompt conversation_history)
    = (st', Raised e) →
  process_bash_command fuel bash_prompt conversation_history st
  = (mkState (the_world st') (self st')
       (trace st'
        ++ [Log LvError (u "Error in process_bash_command: " ++ exn_msg e);
            Log LvError (format_exc e)]),
     Raised e).
Proof.
  intros Hloop. unfold process_bash_command, try_except. mrun.
  unfold loop_entry in Hloop. simpl in Hloop. rewrite Hloop.
  by rewrite <- app_assoc.
Qed.

End Loop.

(** ** Claims on the executor, the router and the ledger *)

Section ExecutorClaims.
Context `{host : Host}.
Implicit Types (st : state) (tool_call : gmap string pyval).

(** C1, as amended.  A non-restart invocation outside dry-run mode whose
    command is a non-empty string and for whose subprocess
    [subprocess.run] returns, with status 0 and the text [out] of stdout:
    the executor returns the content result holding [out] without the
    whitespace at its two ends (the result of [strip], which may be
    empty), and the router wraps it in an envelope with
    [is_error = false] and that text. *)
Theorem exit_zero_returns_stdout st id tool_call cmd out err (w' : world) :
  truthy (dict_get tool_call "restart" (PBool false)) = false →
  no_agi (self st) = false →
  tool_call !! "command" = Some (PStr cmd) →
  cmd ≠ [] →
  subprocess_run (PStr cmd) (environment (self st)) (the_world st)
    = (w', Returned (mkCompletedProcess 0 out err)) →
  ∃ text,
    text = strip out
    ∧ trimmed out text
    ∧ (∃ st', _handle_bash_command tool_call st
              = (st', Returned {[ "content" := text ]}))
    ∧ (∃ st', process_tool_calls [ToolUseBlock id (u "bash") tool_call] st
              = (st', Returned [mkToolResult id (mkEnvelope [text] id false)])).
Proof.
  intros Hrestart Hdry Hcmd Hne Hrun.
  exists (strip out). split; [done |]. split; [apply strip_trimmed |]. split.
  - eexists. by rewrite (handle_completed _ _ _ _ _ _ _ Hrestart Hdry Hcmd Hne Hrun).
  - eexists. rewrite process_single_bash.
    rewrite (handle_completed _ _ cmd 0 out err w') by done.
    simpl. by rewrite make_tool_result_content.
Qed.

(** C2, as amended.  The same invocation when [subprocess.run] returns
    with a status other than 0 and the text [err] of stderr: the executor
    returns the error result whose text is [err] without the whitespace
    at its two ends, or "Command execution failed." when nothing is left
    of it, and the envelope has [is_error = true] and that text. *)
Theorem nonzero_exit_returns_stderr st id tool_call cmd rc out err
    (w' : world) :
  truthy (dict_get tool_call "restart" (PBool false)) = false →
  no_agi (self st) = false →
  tool_call !! "command" = Some (PStr cmd) →
  cmd ≠ [] →
  subprocess_run (PStr cmd) (environment (self st)) (the_world st)
    = (w', Returned (mkCompletedProcess rc out err)) →
  rc ≠ 0 →
  ∃ error_output text,
    error_output = strip err
    ∧ trimmed err error_output
    ∧ text = (if nonempty error_output then error_output
              else u "Command execution failed.")
    ∧ (∃ st', _handle_bash_command tool_call st
              = (st', Returned {[ "error" := text ]}))
    ∧ (∃ st', process_tool_calls [ToolUseBlock id (u "bash") tool_call] st
              = (st', Returned [mkToolResult id (mkEnvelope [text] id true)])).
Proof.
  intros Hrestart Hdry Hcmd Hne Hrun Hrc.
  set (text := if nonempty (strip err) then strip err
               else u "Command execution failed.").
  assert (Hrc' : negb (rc =? 0) = true)
    by (apply negb_true_iff; by apply Z.eqb_neq).
  assert (Htext : nonempty text = true).
  { unfold text. destruct (nonempty (strip err)) eqn:Herr; [done |].
    vm_compute. reflexivity. }
  exists (strip err), text.
  split; [done |]. split; [apply strip_trimmed |]. split; [done |]. split.
  - eexists.
    rewrite (handle_completed _ _ _ _ _ _ _ Hrestart Hdry Hcmd Hne Hrun).
    by rewrite Hrc'.
  - eexists. rewrite process_single_bash.
    rewrite (handle_completed _ _ cmd rc out err w') by done.
    rewrite Hrc'. simpl. fold text.
    by rewrite make_tool_result_error, Htext.
Qed.

(** C5. An invocation whose [restart] entry is true: the executor sets
    the session environment to the ambient one and returns the fixed
    confirmation.  Nothing is asked of the [command] entry, present or
    not, and the result does not depend on it: the test comes before the
    one for a missing command.  The machine is left as it was and the
    only event is one log record, so nothing is executed. *)
Theorem restart_resets_environment st tool_call :
  truthy (dict_get tool_call "restart" (PBool false)) = true →
  ∃ st',
    _handle_bash_command tool_call st
      = (st', Returned {[ "content" := u "Bash session restarted." ]})
    ∧ environment (self st') = os_environ (the_world st)
    ∧ the_world st' = the_world st
    ∧ ∃ new, trace st' = trace st ++ new ∧ no_spawn new.
Proof.
  intros Hrestart. eexists. rewrite (handle_restart _ _ Hrestart).
  repeat split. eexists. split; [reflexivity |].
  by repeat constructor.
Qed.

(** C6, as amended.  In dry-run mode, a non-restart invocation whose
    command is non-empty: the executor returns the content result whose
    text is the dry-run text followed by the command, so it starts with
    the marker and contains the command; the session (its environment
    with it) and the machine are unchanged and no subprocess is started. *)
Theorem dry_run_describes_command st tool_call :
  no_agi (self st) = true →
  truthy (dict_get tool_call "restart" (PBool false)) = false →
  truthy (dict_get tool_call "command" PNone) = true →
  let command := py_str (dict_get tool_call "command" PNone) in
  ∃ st' text,
    _handle_bash_command tool_call st = (st', Returned {[ "content" := text ]})
    ∧ dry_run_marker `prefix_of` text
    ∧ command `suffix_of` text
    ∧ self st' = self st
    ∧ the_world st' = the_world st
    ∧ ∃ new, trace st' = trace st ++ new ∧ no_spawn new.
Proof.
  intros Hdry Hrestart Hcommand command.
  eexists _, _. rewrite (handle_dry_run _ _ Hrestart Hcommand Hdry).
  split; [reflexivity |].
  split.
  { exists (u " Would execute command: " ++ command).
    unfold dry_run_prefix. by rewrite <- app_assoc. }
  split; [by exists dry_run_prefix |].
  repeat split. eexists. split; [reflexivity |]. by repeat constructor.
Qed.

(** C7. For every invocation the executor returns a result, it never
    raises; when its body raises an exception [e], that result is the
    error result whose text is [str(e)].  So it is when the subprocess
    cannot be started: if [subprocess.run] raises [e] for the command of
    a non-restart invocation outside dry-run mode, the result is the
    error result with [str(e)]. *)
Theorem executor_catches_exceptions st tool_call :
  ∃ st' result,
    _handle_bash_command tool_call st = (st', Returned result)
    ∧ (∀ st1 e, handle_bash_command_body tool_call st = (st1, Raised e) →
                result = {[ "error" := exn_msg e ]})
    ∧ (∀ (w' : world) e,
         truthy (dict_get tool_call "restart" (PBool false)) = false →
         no_agi (self st) = false →
         truthy (dict_get tool_call "command" PNone) = true →
         subprocess_run (dict_get tool_call "command" PNone)
           (environment (self st)) (the_world st) = (w', Raised e) →
         result = {[ "error" := exn_msg e ]}).
Proof.
  destruct (handle_returns st tool_call) as (st' & result & Hrun & Hcatch).
  exists st', result. split; [done |]. split.
  - intros st1 e Hbody. by destruct (Hcatch st1 e Hbody).
  - intros w' e Hrestart Hdry Hcommand Hspawn.
    rewrite (handle_spawn_raised _ _ _ _ Hrestart Hdry Hcommand Hspawn) in Hrun.
    by injection Hrun as _ <-.
Qed.

(** C8. Two updates of the ledger leave the counters that one update with
    the sums leaves, for all integers and so for the non-negative ones;
    the cost summary and the lines [log_total_cost] writes are those of
    the counters, hence equal too. *)
Theorem usage_ledger_additive (l : SessionLogger) (a b c d : Z) :
  let twice := update_token_usage c d (update_token_usage a b l) in
  let once := update_token_usage (a + c) (b + d) l in
  twice = once
  ∧ cost_summary twice = cost_summary once
  ∧ total_cost_lines twice = total_cost_lines once.
Proof.
  intros twice once.
  assert (Heq : twice = once).
  { unfold twice, once, update_token_usage. simpl. f_equal; lia. }
  by rewrite Heq.
Qed.

(** C10. Every entry the router returns converts the result of the
    executor for one bash invocation, and its [is_error] flag is true
    exactly when that result has an "error" entry with a non-empty text.
    An error result with the empty text gives an envelope that is not an
    error and whose text is empty. *)
Theorem envelope_error_flag blocks st st' (results : list ToolResult) :
  process_tool_calls blocks st = (st', Returned results) →
  Forall (flag_follows_error blocks) results.
Proof.
  intros Hrun. eapply Forall_impl; [by eapply process_tool_calls_routed |].
  intros r (id & input & st1 & st2 & result & Hin & Hhandle & ->).
  exists id, input, st1, st2, result.
  split; [done |]. split; [done |]. split; [done |]. split; [split |].
  - unfold make_tool_result, get_truthy.
    destruct (result !! "error") as [text|]; [|done].
    destruct text; [done |]. intros _. by eexists.
  - intros (text & Herr & Hne).
    unfold make_tool_result, get_truthy. rewrite Herr.
    by rewrite (nonempty_true _ Hne).
  - intros ->. by rewrite make_tool_result_error.
Qed.

End ExecutorClaims.

(** ** The executor claims on concrete machines *)

Lemma exit_zero_returns_stdout_witness :
  trimmed (u "hi" ++ nl) (u "hi")
  ∧ (∃ st', @_handle_bash_command linux echo_hi
              (start linux [] (new_session ambient_env false))
            = (st', Returned {[ "content" := u "hi" ]}))
  ∧ (∃ st', @process_tool_calls linux
              [ToolUseBlock (u "toolu_01") (u "bash") echo_hi]
              (start linux [] (new_session ambient_env false))
            = (st', Returned
                 [mkToolResult (u "toolu_01")
                    (mkEnvelope [u "hi"] (u "toolu_01") false)])).
Proof.
  destruct (exit_zero_returns_stdout (host := linux)
              (start linux [] (new_session ambient_env false)) (u "toolu_01")
              echo_hi (u "echo hi") (u "hi" ++ nl) [] [])
    as (text & Htext & Hrest); [by vm_compute .. |].
  assert (Hhi : text = u "hi") by (rewrite Htext; by vm_compute).
  rewrite Hhi in Hrest. exact Hrest.
Defined.

Lemma nonzero_exit_returns_stderr_witness :
  trimmed
    (u "ls: cannot access '/nonexistent': No such file or directory" ++ nl)
    (u "ls: cannot access '/nonexistent': No such file or directory")
  ∧ (∃ st', @_handle_bash_command linux list_missing
              (start linux [] (new_session ambient_env false))
            = (st', Returned {[ "error" :=
                 u "ls: cannot access '/nonexistent': No such file or directory" ]}))
  ∧ (∃ st', @process_tool_calls linux
              [ToolUseBlock (u "toolu_01") (u "bash") list_missing]
              (start linux [] (new_session ambient_env false))
            = (st', Returned
                 [mkToolResult (u "toolu_01")
                    (mkEnvelope
                       [u "ls: cannot access '/nonexistent': No such file or directory"]
                       (u "toolu_01") true)])).
Proof.
  destruct (nonzero_exit_returns_stderr (host := linux)
              (start linux [] (new_session ambient_env false)) (u "toolu_01")
              list_missing (u "ls /nonexistent") 2 []
              (u "ls: cannot access '/nonexistent': No such file or directory"
               ++ nl) [])
    as (error_output & text & Herr & Htrim & Htext & Hrest);
    [by vm_compute .. |].
  assert (Hmsg : error_output
                 = u "ls: cannot access '/nonexistent': No such file or directory")
    by (rewrite Herr; by vm_compute).
  rewrite Hmsg in Htrim, Htext.
  assert (Hmsg' : text
                  = u "ls: cannot access '/nonexistent': No such file or directory")
    by (rewrite Htext; by vm_compute).
  rewrite Hmsg' in Hrest. split; [exact Htrim | exact Hrest].
Defined.

(** The generic message of C2, for a command that writes nothing: its
    stderr trimmed is empty. *)
Example false_gives_generic_message :
  ∃ st', @_handle_bash_command linux run_false
           (start linux [] (new_session ambient_env false))
         = (st', Returned {[ "error" := u "Command execution failed." ]}).
Proof.
  eexists. rewrite (handle_completed (host := linux) _ _ (u "false") 1 [] [] [])
    by (by vm_compute).
  by vm_compute.
Qed.

(** C1 as stated fails when the subprocess ends with status 0 but wrote
    to stderr bytes that are no text: [subprocess.run] raises
    [UnicodeDecodeError], and the executor returns the error result with
    its message although stdout was "hi". *)
Lemma exit_zero_claim_counterexample :
  ¬ exit_zero_claim noisy_bash ambient_env
      (start (process_host noisy_bash ambient_env) []
         (new_session ambient_env false))
      (u "toolu_01") echo_and_noise
      (u "echo hi; printf '\377' >&2") (u "hi" ++ nl).
Proof.
  intros Hclaim.
  destruct Hclaim as (text & _ & (st' & Hrun) & _); [by vm_compute .. |].
  rewrite (handle_spawn_raised (host := process_host noisy_bash ambient_env)
             _ _ cannot_decode []) in Hrun by (by vm_compute).
  apply (f_equal (λ p : state * outcome (gmap string pystr),
            match p.2 with
            | Returned result => result !! "error"
            | Raised _ => None
            end)) in Hrun.
  simpl in Hrun.
  rewrite lookup_singleton_eq, lookup_singleton_ne in Hrun; discriminate.
Qed.

(** C2 as stated fails when the subprocess ends with another status but
    wrote to stdout bytes that are no text: the text of the error result
    is the message of [UnicodeDecodeError], not the "boom" of stderr. *)
Lemma nonzero_exit_claim_counterexample :
  ¬ nonzero_exit_claim noisy_bash ambient_env
      (start (process_host noisy_bash ambient_env) []
         (new_session ambient_env false))
      (u "toolu_01") noise_and_boom
      (u "printf '\377'; echo boom >&2; exit 3") (u "boom" ++ nl).
Proof.
  intros Hclaim.
  destruct Hclaim
    as (error_output & text & (pre & post & Herr & _) & Htext & (st' & Hrun) & _);
    [by vm_compute .. |].
  rewrite (handle_spawn_raised (host := process_host noisy_bash ambient_env)
             _ _ cannot_decode []) in Hrun by (by vm_compute).
  apply (f_equal (λ p : state * outcome (gmap string pystr),
            match p.2 with
            | Returned result => result !! "error"
            | Raised _ => None
            end)) in Hrun.
  simpl in Hrun. rewrite !lookup_singleton_eq in Hrun.
  injection Hrun as Hmsg. rewrite <- Hmsg in Htext.
  destruct (nonempty error_output).
  - rewrite <- Htext in Herr. apply (f_equal length) in Herr.
    rewrite !length_app in Herr.
    replace (length (u "boom")) with 4%nat in Herr by (by vm_compute).
    replace (length nl) with 1%nat in Herr by (by vm_compute).
    replace (length (u "'utf-8' codec can't decode byte 0xff in position 0: invalid start byte"))
      with 70%nat in Herr by (by vm_compute).
    lia.
  - vm_compute in Htext. discriminate.
Qed.

Lemma restart_resets_environment_witness :
  ∃ st' : @state linux, @_handle_bash_command linux restart_and_command
           (start linux [] (new_session stale_env false))
         = (st', Returned {[ "content" := u "Bash session restarted." ]})
         ∧ environment (self st') = ambient_env
         ∧ the_world st' = ([] : list Response)
         ∧ ∃ new, trace st' = [] ++ new ∧ no_spawn new.
Proof.
  apply (restart_resets_environment (host := linux)
           (start linux [] (new_session stale_env false)) restart_and_command).
  by vm_compute.
Defined.

Lemma dry_run_describes_command_witness :
  ∃ (st' : @state linux) text,
    @_handle_bash_command linux echo_hi (start linux [] (new_session ambient_env true))
      = (st', Returned {[ "content" := text ]})
    ∧ dry_run_marker `prefix_of` text
    ∧ u "echo hi" `suffix_of` text
    ∧ self st' = new_session ambient_env true
    ∧ the_world st' = ([] : list Response)
    ∧ ∃ new, trace st' = [] ++ new ∧ no_spawn new.
Proof.
  apply (dry_run_describes_command (host := linux)
           (start linux [] (new_session ambient_env true)) echo_hi);
    by vm_compute.
Defined.

(** C6 as stated fails on the empty command: the executor answers with
    the missing-command error, dry-run mode or not. *)
Lemma dry_run_claim_counterexample :
  ¬ @dry_run_claim linux (start linux [] (new_session ambient_env true))
      empty_command.
Proof.
  intros Hclaim.
  destruct Hclaim as (st' & text & Hrun & _); [by vm_compute .. |].
  rewrite handle_no_command in Hrun by (by vm_compute).
  apply (f_equal (λ p : state * outcome (gmap string pystr),
            match p.2 with
            | Returned result => result !! "error"
            | Raised _ => None
            end)) in Hrun.
  simpl in Hrun.
  rewrite lookup_singleton_eq, lookup_singleton_ne in Hrun; discriminate.
Qed.

Lemma executor_catches_exceptions_witness :
  ∃ st', @_handle_bash_command broken_machine echo_hi
           (start broken_machine [] (new_session ambient_env false))
         = (st', Returned {[ "error" :=
              u "[Errno 2] No such file or directory: '/bin/bash'" ]}).
Proof.
  destruct (executor_catches_exceptions (host := broken_machine)
              (start broken_machine [] (new_session ambient_env false)) echo_hi)
    as (st' & result & Hrun & _ & Hspawn).
  exists st'. rewrite Hrun.
  rewrite (Hspawn []
    (mkExn "FileNotFoundError"
       (u "[Errno 2] No such file or directory: '/bin/bash'")));
    by vm_compute.
Defined.

Lemma envelope_error_flag_witness :
  Forall (@flag_follows_error full_machine
            [ToolUseBlock (u "toolu_01") (u "bash") echo_hi])
    [mkToolResult (u "toolu_01") (mkEnvelope [[]] (u "toolu_01") false)].
Proof.
  apply (envelope_error_flag (host := full_machine)
           [ToolUseBlock (u "toolu_01") (u "bash") echo_hi]
           (start full_machine [] (new_session ambient_env false))
           (@process_tool_calls full_machine
              [ToolUseBlock (u "toolu_01") (u "bash") echo_hi]
              (start full_machine [] (new_session ambient_env false))).1).
  by vm_compute.
Defined.

(** ** Claims on the agent loop *)

Section LoopClaims.
Context `{host : Host}.
Implicit Types (st : state) (response : Response).

(** C4. In any run of [process_bash_command], after any number [k] of
    rounds that went on: when the provider asks for tools and the first
    entry the router returns is an error, the run ends as [Aborted] in
    that round, for every bound [fuel] on the rounds still allowed.  The
    final state is the one in which the router returned, with the first
    tool result appended as a user turn, one error record and the cost
    lines logged: the machine is untouched after the router and no
    provider call or subprocess follows the append. *)
Theorem abort_on_first_tool_error k fuel bash_prompt conversation_history
    st_init st (w1 : world) response st2 first others :
  rounds k (loop_entry st_init bash_prompt conversation_history) st →
  messages_create (messages (self st)) (the_world st)
    = (w1, Returned response) →
  stop_reason response = u "tool_use" →
  process_tool_calls (resp_content response) (after_response st w1 response)
    = (st2, Returned (first :: others)) →
  is_error (output first) = true →
  ∃ st',
    process_bash_command (k + S fuel) bash_prompt conversation_history st_init
      = (st', Returned (Some Aborted))
    ∧ messages (self st')
      = messages (self st2)
          ++ [mkMessage (u "user") [ToolResultParam (output first)]]
    ∧ the_world st' = the_world st2
    ∧ trace st'
      = trace st2
          ++ Log LvError
               (u "Error: " ++ repr_content (env_content (output first)))
          :: (Log LvInfo <$> total_cost_lines (session_logger (self st2))).
Proof.
  intros Hrounds Hcreate Hstop Hrouter Herror.
  eexists. split.
  { apply process_bash_command_exit.
    rewrite (agent_loop_rounds _ _ _ _ Hrounds).
    apply agent_loop_exit.
    rewrite (loop_round_tools _ _ _ Hcreate Hstop), Hrouter, Herror.
    reflexivity. }
  split; [done |]. split; [done |].
  simpl. by rewrite <- app_assoc.
Qed.

(** The first [break].  In any run, after any number [k] of rounds that
    went on: when the response does not stop for tool use and its first
    block is a text block, the loop is left as [FinalAnswer] with the text
    of that block, which is the first text block of the response; the
    text is printed last. *)
Lemma final_answer_is_first_block k fuel st0 st (w1 : world) response
    text rest :
  rounds k st0 st →
  messages_create (messages (self st)) (the_world st)
    = (w1, Returned response) →
  stop_reason response ≠ u "tool_use" →
  resp_content response = TextBlock text :: rest →
  first_text_block (resp_content response) = Some text
  ∧ agent_loop (k + S fuel) st0
    = (mkState w1 (self (after_response st w1 response))
         (trace (after_response st w1 response) ++ [Stdout text]),
       Returned (Some (FinalAnswer text))).
Proof.
  intros Hrounds Hcreate Hstop Hcontent.
  split; [by rewrite Hcontent |].
  rewrite (agent_loop_rounds _ _ _ _ Hrounds).
  apply agent_loop_exit.
  rewrite (loop_round_final _ _ _ Hcreate Hstop), Hcontent.
  reflexivity.
Qed.

End LoopClaims.

(** ** The loop claims on concrete runs *)

Lemma abort_on_first_tool_error_witness :
  ∃ st' : @state linux,
    process_bash_command (0 + 3) (u "run false") []
      (start linux [asks_false; answers] (new_session ambient_env false))
    = (st', Returned (Some Aborted))
    ∧ the_world st' = [answers].
Proof.
  set (st_init := start linux [asks_false; answers]
                    (new_session ambient_env false)).
  set (st := @loop_entry linux st_init (u "run false") []).
  set (first := mkToolResult (u "toolu_01")
         (mkEnvelope [u "Command execution failed."] (u "toolu_01") true)).
  destruct (abort_on_first_tool_error (host := linux) 0 2 (u "run false") []
              st_init st [answers] asks_false
              (@process_tool_calls linux (resp_content asks_false)
                 (after_response st [answers] asks_false)).1
              first [])
    as (st' & Hrun & _ & Hworld & _);
    [constructor | by vm_compute .. |].
  exists st'. split; [exact Hrun |].
  rewrite Hworld. by vm_compute.
Defined.

Lemma final_answer_is_first_block_witness :
  first_text_block (resp_content answers) = Some (u "The command printed hi.")
  ∧ ∃ st' : @state linux,
      agent_loop (0 + 1)
        (start linux [answers] (prompted ambient_env false (u "say hi")))
      = (st', Returned (Some (FinalAnswer (u "The command printed hi.")))).
Proof.
  destruct (final_answer_is_first_block (host := linux) 0 0
              (start linux [answers] (prompted ambient_env false (u "say hi")))
              (start linux [answers] (prompted ambient_env false (u "say hi")))
              [] answers (u "The command printed hi.") [])
    as [Hfirst Hrun]; [constructor | by vm_compute .. |].
  split; [exact Hfirst | eexists; exact Hrun].
Defined.

(** C9 at a response that does not stop for tool use and whose first
    block is not a text block, and at one without blocks: the response
    of the first has the text block "hi", yet [response.content[0].text]
    raises in both and [process_bash_command] ends with that exception
    instead of an answer. *)
Theorem first_block_not_text_raises :
  let session := new_session ambient_env false in
  stop_reason cut_off ≠ u "tool_use"
  ∧ first_text_block (resp_content cut_off) = Some (u "hi")
  ∧ (∃ st' : @state linux,
       process_bash_command 5 (u "say hi") [] (start linux [cut_off] session)
       = (st', Raised (mkExn "AttributeError"
                         (u "'BetaToolUseBlock' object has no attribute 'text'"))))
  ∧ stop_reason says_nothing ≠ u "tool_use"
  ∧ (∃ st' : @state linux,
       process_bash_command 5 (u "say hi") []
         (start linux [says_nothing] session)
       = (st', Raised (mkExn "IndexError" (u "list index out of range")))).
Proof.
  intros session.
  split; [by vm_compute |]. split; [by vm_compute |].
  split.
  { exists (@process_bash_command linux 5 (u "say hi") []
              (start linux [cut_off] session)).1.
    by vm_compute. }
  split; [by vm_compute |].
  exists (@process_bash_command linux 5 (u "say hi") []
            (start linux [says_nothing] session)).1.
  by vm_compute.
Qed.

(** C3 at a response with two bash invocations: the router returns two
    entries, the round goes on, and the user turn appended holds the
    first envelope only, not the list; the second call of the provider
    receives that turn, without a result for the second invocation. *)
Theorem second_envelope_dropped :
  let st_init := start linux [asks_two; answers]
                   (new_session ambient_env false) in
  let st0 := @loop_entry linux st_init (u "say hi, list /nonexistent") [] in
  let first := mkToolResult (u "toolu_01")
                 (mkEnvelope [u "hi"] (u "toolu_01") false) in
  let second := mkToolResult (u "toolu_02")
                  (mkEnvelope
                     [u "ls: cannot access '/nonexistent': No such file or directory"]
                     (u "toolu_02") true) in
  ∃ st2 st3 st4 : @state linux,
    process_tool_calls (resp_content asks_two)
      (after_response st0 [answers] asks_two)
      = (st2, Returned [first; second])
    ∧ loop_round st0 = (st3, Returned None)
    ∧ last (messages (self st3))
      = Some (mkMessage (u "user") [ToolResultParam (output first)])
    ∧ ¬ whole_list_delivered [first; second] st3
    ∧ process_bash_command 5 (u "say hi, list /nonexistent") [] st_init
      = (st4, Returned (Some (FinalAnswer (u "The command printed hi."))))
    ∧ provider_calls (trace st4) !! 1%nat
      = Some [mkMessage (u "user")
                [TextParam (u "say hi, list /nonexistent")];
              mkMessage (u "assistant")
                (DumpParam <$> resp_content asks_two);
              mkMessage (u "user") [ToolResultParam (output first)]].
Proof.
  intros st_init st0 first second.
  exists (@process_tool_calls linux (resp_content asks_two)
            (after_response st0 [answers] asks_two)).1,
         (@loop_round linux st0).1,
         (@process_bash_command linux 5 (u "say hi, list /nonexistent") []
            st_init).1.
  split; [by vm_compute |]. split; [by vm_compute |].
  split; [by vm_compute |].
  split; [unfold whole_list_delivered; vm_compute; discriminate |].
  split; by vm_compute.
Qed.

(** * Further properties *)

(** ** Events *)

Lemma spawns_app (evs1 evs2 : list event) :
  spawns (evs1 ++ evs2) = spawns evs1 ++ spawns evs2.
Proof.
  induction evs1 as [|[] evs1 IH]; simpl; [done | done | | done | done].
  by rewrite IH.
Qed.

Lemma provider_calls_app (evs1 evs2 : list event) :
  provider_calls (evs1 ++ evs2) = provider_calls evs1 ++ provider_calls evs2.
Proof.
  induction evs1 as [|[] evs1 IH]; simpl; [done | done | done | | done].
  by rewrite IH.
Qed.

Lemma printed_app (evs1 evs2 : list event) :
  printed (evs1 ++ evs2) = printed evs1 ++ printed evs2.
Proof.
  induction evs1 as [|[] evs1 IH]; simpl; [done | done | done | done |].
  by rewrite IH.
Qed.

Lemma logs_are_silent (evs : list event) :
  Forall (λ ev, is_log ev = true) evs →
  spawns evs = [] ∧ provider_calls evs = [] ∧ printed evs = [].
Proof. induction 1 as [|[] evs Hev _ IH]; simpl; done. Qed.

(** ** The executor, in every case *)

Section ExecutorFrame.
Context `{host : Host}.
Implicit Types (st : state) (tool_call : gmap string pyval).

(** An invocation that reaches [subprocess.run]: what is left of it
    besides the result. *)
Lemma handle_run st tool_call :
  truthy (dict_get tool_call "restart" (PBool false)) = false →
  truthy (dict_get tool_call "command" PNone) = true →
  no_agi (self st) = false →
  let command := dict_get tool_call "command" PNone in
  let env := environment (self st) in
  ∃ result logs,
    _handle_bash_command tool_call st
    = (mkState (subprocess_run command env (the_world st)).1 (self st)
         (trace st
          ++ [Log LvInfo (u "Executing bash command: " ++ py_str command);
              Spawn command env]
          ++ logs),
       Returned result)
    ∧ Forall (λ ev, is_log ev = true) logs.
Proof.
  intros Hrestart Hcommand Hdry command env.
  unfold _handle_bash_command, try_except, handle_bash_command_body.
  rewrite Hrestart, Hcommand. fold command.
  assert (Hslice : ∀ st0, ∃ r, slice_20 command st0 = (st0, r)).
  { intros st0. destruct command; eexists; reflexivity. }
  mrun. rewrite Hdry. simpl. fold env.
  destruct (subprocess_run command env (the_world st)) as [w' [cp|e]]; simpl.
  - destruct (nonempty (strip (stdout cp))).
    + match goal with |- context [slice_20 command ?s] =>
        destruct (Hslice s) as [[head|e] ->] end; simpl.
      * destruct (nonempty (strip (stderr cp))), (returncode cp =? 0); simpl;
          eexists _, _; (split; [rewrite <- ?app_assoc; reflexivity |]);
          by repeat constructor.
      * eexists _, _. split; [rewrite <- ?app_assoc; reflexivity |].
        by repeat constructor.
    + destruct (nonempty (strip (stderr cp))), (returncode cp =? 0); simpl;
        eexists _, _; (split; [rewrite <- ?app_assoc; reflexivity |]);
        by repeat constructor.
  - eexists _, _. split; [rewrite <- ?app_assoc; reflexivity |].
    by repeat constructor.
Qed.

(** What every invocation leaves behind. *)
Lemma handle_frame st tool_call :
  let restart := truthy (dict_get tool_call "restart" (PBool false)) in
  let command := dict_get tool_call "command" PNone in
  let runs := runs_subprocess (self st) tool_call in
  ∃ st' result new,
    _handle_bash_command tool_call st = (st', Returned result)
    ∧ self st'
      = (if restart then set_environment (os_environ (the_world st)) (self st)
         else self st)
    ∧ the_world st'
      = (if runs
         then (subprocess_run command (environment (self st)) (the_world st)).1
         else the_world st)
    ∧ trace st' = trace st ++ new
    ∧ Exists (λ ev, is_log ev = true) new
    ∧ provider_calls new = []
    ∧ printed new = []
    ∧ spawns new = (if runs then [(command, environment (self st))] else []).
Proof.
  intros restart command runs. unfold runs, runs_subprocess. fold restart command.
  destruct restart eqn:Hrestart.
  { eexists _, _, _. rewrite (handle_restart _ _ Hrestart). simpl.
    repeat split. by left. }
  destruct (truthy command) eqn:Hcommand.
  2: { eexists _, _, _. rewrite (handle_no_command _ _ Hrestart Hcommand). simpl.
       repeat split. by left. }
  destruct (no_agi (self st)) eqn:Hdry.
  { eexists _, _, _. rewrite (handle_dry_run _ _ Hrestart Hcommand Hdry). simpl.
    repeat split. by left. }
  destruct (handle_run st tool_call Hrestart Hcommand Hdry)
    as (result & logs & -> & Hlogs).
  destruct (logs_are_silent logs Hlogs) as (Hspawns & Hcalls & Hprinted).
  eexists _, _, _. simpl. fold command.
  split; [reflexivity |]. split; [reflexivity |]. split; [reflexivity |].
  split; [reflexivity |]. split; [by left |].
  simpl. by rewrite Hcalls, Hprinted, Hspawns.
Qed.

End ExecutorFrame.

(** ** The router, for every response *)

Section RouterFrame.
Context `{host : Host}.
Implicit Types (st : state) (blocks : list ContentBlock).

Lemma make_tool_result_ids id (result : gmap string pystr) :
  tool_call_id (make_tool_result id result) = id
  ∧ tool_use_id (output (make_tool_result id result)) = id.
Proof. unfold make_tool_result. by destruct (get_truthy result "error"). Qed.

(** What the [for] loop leaves behind, for every list of blocks. *)
Lemma process_from_frame blocks : ∀ acc st,
  ∃ st' new evs,
    process_tool_calls_from blocks acc st = (st', Returned (acc ++ new))
    ∧ tool_call_id <$> new = (bash_calls blocks).*1
    ∧ Forall (λ r, tool_use_id (output r) = tool_call_id r) new
    ∧ messages (self st') = messages (self st)
    ∧ session_logger (self st') = session_logger (self st)
    ∧ no_agi (self st') = no_agi (self st)
    ∧ current_tool_calls (self st')
      = current_tool_calls (self st) ++ (call_record <$> bash_calls blocks)
    ∧ trace st' = trace st ++ evs
    ∧ provider_calls evs = []
    ∧ printed evs = []
    ∧ (no_agi (self st) = true →
       spawns evs = [] ∧ the_world st' = the_world st)
    ∧ (bash_calls blocks = [] → st' = st).
Proof.
  induction blocks as [|block blocks IH]; intros acc st.
  - exists st, [], []. simpl. rewrite !app_nil_r. by repeat split.
  - destruct block as [text|id name input].
    { simpl. apply IH. }
    destruct (decide (name = u "bash")) as [->|Hne].
    2: { rewrite process_from_other by done. simpl.
         rewrite bool_decide_eq_false_2 by done. apply IH. }
    rewrite process_from_bash. simpl bash_calls.
    rewrite bool_decide_eq_true_2 by done.
    destruct (handle_frame (router_enter st id input) input)
      as (st1 & result & new1 & -> & Hself & Hworld & Htrace & _ & Hcalls
          & Hprinted & Hspawns).
    destruct (IH (acc ++ [make_tool_result id result]) st1)
      as (st' & new & evs & -> & Hids & Huse & Hmsgs & Hledger & Hdry & Hrec
          & Htrace' & Hcalls' & Hprinted' & Hspawns' & _).
    assert (Hfields : messages (self st1) = messages (self st)
                      ∧ session_logger (self st1) = session_logger (self st)
                      ∧ no_agi (self st1) = no_agi (self st)
                      ∧ current_tool_calls (self st1)
                        = current_tool_calls (self st) ++ [call_record (id, input)]).
    { rewrite Hself. by destruct (truthy _). }
    destruct Hfields as (Hm1 & Hl1 & Hd1 & Hr1).
    destruct (make_tool_result_ids id result) as [Hid1 Hid2].
    exists st', (make_tool_result id result :: new),
      (Log LvInfo (u "Bash tool call input: " ++ repr_input input)
         :: new1 ++ evs).
    split; [by rewrite <- app_assoc |].
    split; [by rewrite !fmap_cons, Hid1, Hids |].
    split; [constructor; [by rewrite Hid1, Hid2 | done] |].
    split; [by rewrite Hmsgs |]. split; [by rewrite Hledger |].
    split; [by rewrite Hdry |].
    split; [by rewrite Hrec, Hr1, fmap_cons, <- app_assoc |].
    split; [rewrite Htrace', Htrace; simpl; by rewrite <- !app_assoc |].
    split; [simpl; by rewrite provider_calls_app, Hcalls, Hcalls' |].
    split; [simpl; by rewrite printed_app, Hprinted, Hprinted' |].
    split; [|done].
    intros Hdry0.
    destruct Hspawns' as [Hs' Hw']; [by rewrite Hd1 |].
    assert (Hruns : runs_subprocess (self (router_enter st id input)) input
                    = false).
    { unfold runs_subprocess. simpl. rewrite Hdry0.
      by rewrite andb_false_r. }
    rewrite Hruns in Hspawns, Hworld.
    split; [simpl; by rewrite spawns_app, Hspawns, Hs' |].
    by rewrite Hw', Hworld.
Qed.

(** The same for [process_tool_calls], which first empties
    [current_tool_calls]. *)
Lemma process_tool_calls_frame blocks st :
  ∃ st' results evs,
    process_tool_calls blocks st = (st', Returned results)
    ∧ tool_call_id <$> results = (bash_calls blocks).*1
    ∧ Forall (λ r, tool_use_id (output r) = tool_call_id r) results
    ∧ messages (self st') = messages (self st)
    ∧ session_logger (self st') = session_logger (self st)
    ∧ no_agi (self st') = no_agi (self st)
    ∧ current_tool_calls (self st') = call_record <$> bash_calls blocks
    ∧ trace st' = trace st ++ evs
    ∧ provider_calls evs = []
    ∧ printed evs = []
    ∧ (no_agi (self st) = true →
       spawns evs = [] ∧ the_world st' = the_world st)
    ∧ (bash_calls blocks = [] → st' = router_reset st).
Proof.
  destruct (process_from_frame blocks [] (router_reset st))
    as (st' & new & evs & Hrun & Hrest).
  exists st', new, evs. split; [exact Hrun | exact Hrest].
Qed.

End RouterFrame.

(** ** The loop, for every provider *)

Section LoopFrame.
Context `{host : Host}.
Implicit Types (st : state) (response : Response).

(** What one round leaves behind. *)
Lemma loop_round_frame st :
  let st' := (loop_round st).1 in
  no_agi (self st') = no_agi (self st)
  ∧ provider_calls (trace st')
    = provider_calls (trace st) ++ [messages (self st)]
  ∧ (no_agi (self st) = true → spawns (trace st') = spawns (trace st))
  ∧ match messages_create (messages (self st)) (the_world st) with
    | (w1, Returned response) =>
        session_logger (self st')
        = update_token_usage (usage_input_tokens response)
            (usage_output_tokens response) (session_logger (self st))
        ∧ messages (self st')
          = messages (self st)
              ++ round_turns response
                   (match (process_tool_calls (resp_content response)
                             (after_response st w1 response)).2 with
                    | Returned results => results
                    | Raised _ => []
                    end)
    | (w1, Raised e) =>
        self st' = self st ∧ loop_round st = ((loop_round st).1, Raised e)
    end.
Proof.
  intros st'. unfold st'.
  destruct (messages_create (messages (self st)) (the_world st))
    as [w1 [response|e]] eqn:Hcreate.
  2: { rewrite (loop_round_create_raised _ _ _ Hcreate). simpl.
       rewrite provider_calls_app, spawns_app. simpl.
       by rewrite !app_nil_r. }
  assert (Hcalls : provider_calls (trace (after_response st w1 response))
                   = provider_calls (trace st) ++ [messages (self st)]).
  { unfold after_response. simpl. by rewrite provider_calls_app. }
  assert (Hspawns : spawns (trace (after_response st w1 response))
                    = spawns (trace st)).
  { unfold after_response. simpl. rewrite spawns_app. simpl.
    by rewrite app_nil_r. }
  unfold round_turns.
  destruct (decide (stop_reason response = u "tool_use")) as [Hstop|Hstop].
  - rewrite (loop_round_tools _ _ _ Hcreate Hstop).
    rewrite bool_decide_eq_false_2 by (intros Hne; by apply Hne).
    destruct (process_tool_calls_frame (resp_content response)
                (after_response st w1 response))
      as (st2 & results & evs & -> & _ & _ & Hmsgs & Hledger & Hdry & _
          & Htrace & Hcalls2 & _ & Hspawns2 & _).
    simpl in Hmsgs, Hledger, Hdry.
    assert (Hc2 : provider_calls (trace st2)
                  = provider_calls (trace st) ++ [messages (self st)]).
    { by rewrite Htrace, provider_calls_app, Hcalls2, app_nil_r. }
    assert (Hs2 : no_agi (self st) = true →
                  spawns (trace st2) = spawns (trace st)).
    { intros Hd. destruct (Hspawns2 Hd) as [Hs _].
      by rewrite Htrace, spawns_app, Hs, app_nil_r. }
    destruct results as [|first others]; simpl.
    + by rewrite Hmsgs, Hledger.
    + destruct (is_error (output first)); simpl;
        rewrite ?provider_calls_app, ?spawns_app, Hmsgs, Hledger, <- ?app_assoc;
        simpl; rewrite ?app_nil_r; done.
  - rewrite (loop_round_final _ _ _ Hcreate Hstop).
    rewrite bool_decide_eq_true_2 by done.
    clear Hcalls Hspawns. unfold after_response.
    destruct (resp_content response) as [|[text|id name input] rest];
      simpl; rewrite ?provider_calls_app, ?spawns_app; simpl;
      rewrite ?app_nil_r; done.
Qed.

Lemma loop_round_prefix st :
  messages (self st) `prefix_of` messages (self (loop_round st).1).
Proof.
  destruct (loop_round_frame st) as (_ & _ & _ & Hcase).
  destruct (messages_create (messages (self st)) (the_world st))
    as [w1 [response|e]].
  - destruct Hcase as [_ ->]. by eexists.
  - destruct Hcase as [-> _]. done.
Qed.

(** The three ways one step of the loop goes. *)
Lemma agent_loop_step fuel st :
  agent_loop (S fuel) st
  = match loop_round st with
    | (st1, Returned None) => agent_loop fuel st1
    | (st1, Returned (Some exit)) => (st1, Returned (Some exit))
    | (st1, Raised e) => (st1, Raised e)
    end.
Proof.
  simpl. unfold mbind, M_bind.
  by destruct (loop_round st) as [st1 [[exit|]|e]].
Qed.

(** What the loop leaves behind, for every bound on its rounds. *)
Lemma agent_loop_frame fuel : ∀ st,
  let st' := (agent_loop fuel st).1 in
  no_agi (self st') = no_agi (self st)
  ∧ messages (self st) `prefix_of` messages (self st')
  ∧ (no_agi (self st) = true → spawns (trace st') = spawns (trace st))
  ∧ ∃ calls,
      provider_calls (trace st') = provider_calls (trace st) ++ calls
      ∧ Forall (λ msgs, messages (self st) `prefix_of` msgs) calls
      ∧ StronglySorted prefix calls
      ∧ (fuel ≠ 0%nat → head calls = Some (messages (self st))).
Proof.
  induction fuel as [|fuel IH]; intros st st'.
  { unfold st'. simpl. split; [done |]. split; [done |]. split; [done |].
    exists []. rewrite app_nil_r.
    split; [done |]. split; [constructor |]. split; [constructor | done]. }
  destruct (loop_round_frame st) as (Hdry & Hcalls & Hspawns & _).
  pose proof (loop_round_prefix st) as Hprefix.
  unfold st'. rewrite agent_loop_step.
  destruct (loop_round st) as [st1 [[exit|]|e]]; simpl in *.
  1, 3: split; [done |]; split; [done |]; split; [done |];
        exists [messages (self st)];
        split; [done |]; split; [by repeat constructor |];
        split; [by repeat constructor | done].
  destruct (IH st1) as (Hdry1 & Hprefix1 & Hspawns1 & calls & Hcalls1 & Hall
                        & Hsorted & _).
  split; [by rewrite Hdry1 |]. split; [by etrans |].
  split.
  { intros Hd. rewrite Hspawns1 by (by rewrite Hdry). by apply Hspawns. }
  exists (messages (self st) :: calls).
  split; [by rewrite Hcalls1, Hcalls, <- app_assoc |].
  split.
  { constructor; [done |]. eapply Forall_impl; [exact Hall |].
    intros msgs Hmsgs. by etrans. }
  split; [|done].
  constructor; [done |]. eapply Forall_impl; [exact Hall |].
  intros msgs Hmsgs. by etrans.
Qed.

Lemma cost_lines_are_logs (lines : list pystr) :
  Forall (λ ev, is_log ev = true) (Log LvInfo <$> lines).
Proof. induction lines; by constructor. Qed.

(** A run is its loop, entered in [loop_entry], followed by log records
    only. *)
Lemma process_bash_command_frame fuel bash_prompt conversation_history st :
  let st1 := (agent_loop fuel
                (loop_entry st bash_prompt conversation_history)).1 in
  let st' := (process_bash_command fuel bash_prompt conversation_history st).1 in
  ∃ logs,
    st' = mkState (the_world st1) (self st1) (trace st1 ++ logs)
    ∧ Forall (λ ev, is_log ev = true) logs.
Proof.
  intros st1 st'. unfold st1, st'.
  destruct (agent_loop fuel (loop_entry st bash_prompt conversation_history))
    as [st2 [[exit|]|e]] eqn:Hloop.
  - rewrite (process_bash_command_exit _ _ _ _ _ _ Hloop).
    eexists. split; [reflexivity |]. apply cost_lines_are_logs.
  - exists []. split; [|constructor].
    unfold process_bash_command, try_except, mbind, M_bind, mret, M_ret,
      get_self, modify_self, logger_info, emit.
    cbn -[log_total_cost].
    unfold loop_entry in Hloop. simpl in Hloop. rewrite Hloop.
    simpl. rewrite app_nil_r. by destruct st2.
  - rewrite (process_bash_command_raised _ _ _ _ _ _ Hloop).
    eexists. split; [reflexivity |]. by repeat constructor.
Qed.

End LoopFrame.

(** ** Further properties of the executor *)

Section ExecutorExtras.
Context `{host : Host}.
Implicit Types (st : state) (tool_call : gmap string pyval).

(** X1. A non-restart invocation whose command is absent, [None] or
    empty, in dry-run mode or not: the executor returns the error result
    "No command provided to execute.", the session and the machine stay
    as they were and no subprocess is started; the router makes it an
    envelope with [is_error = true]. *)
Theorem missing_command_is_error st id tool_call :
  truthy (dict_get tool_call "restart" (PBool false)) = false →
  truthy (dict_get tool_call "command" PNone) = false →
  (∃ st',
     _handle_bash_command tool_call st
       = (st', Returned {[ "error" := u "No command provided to execute." ]})
     ∧ self st' = self st
     ∧ the_world st' = the_world st
     ∧ spawns (trace st') = spawns (trace st))
  ∧ (∃ st',
       process_tool_calls [ToolUseBlock id (u "bash") tool_call] st
       = (st', Returned
            [mkToolResult id
               (mkEnvelope [u "No command provided to execute."] id true)])).
Proof.
  intros Hrestart Hcommand. split.
  - eexists. rewrite (handle_no_command _ _ Hrestart Hcommand).
    repeat split. simpl. rewrite spawns_app. simpl. by rewrite app_nil_r.
  - eexists. rewrite process_single_bash.
    rewrite (handle_no_command _ _ Hrestart Hcommand).
    rewrite make_tool_result_error. by vm_compute.
Qed.

(** X2. Only a restart changes the session: after any other invocation,
    whatever the command does, the session is the one before, its
    environment with it; a restart changes the environment and nothing
    else. *)
Theorem session_changes_only_on_restart st tool_call :
  let st' := (_handle_bash_command tool_call st).1 in
  self st'
  = (if truthy (dict_get tool_call "restart" (PBool false))
     then set_environment (os_environ (the_world st)) (self st)
     else self st).
Proof.
  destruct (handle_frame st tool_call) as (st1 & result & new & Hrun & Hself & _).
  simpl. by rewrite Hrun.
Qed.


(** X4. After a restart, a command runs with the ambient environment,
    whatever the environment of the session was before. *)
Theorem command_after_restart_uses_ambient st restart_call tool_call :
  truthy (dict_get restart_call "restart" (PBool false)) = true →
  runs_subprocess (self st) tool_call = true →
  let st1 := (_handle_bash_command restart_call st).1 in
  let st2 := (_handle_bash_command tool_call st1).1 in
  spawns (trace st2)
  = spawns (trace st)
      ++ [(dict_get tool_call "command" PNone, os_environ (the_world st))].
Proof.
  intros Hrestart Hruns st1 st2. unfold st2, st1.
  rewrite (handle_restart _ _ Hrestart). simpl.
  match goal with |- context [_handle_bash_command tool_call ?s] =>
    destruct (handle_frame s tool_call)
      as (st3 & result & new & Hrun & _ & _ & Htrace & _ & _ & _ & Hspawns) end.
  rewrite Hrun. simpl in *. rewrite Htrace, !spawns_app, Hspawns. simpl.
  unfold runs_subprocess in *. simpl. rewrite Hruns.
  by rewrite app_nil_r.
Qed.

End ExecutorExtras.

Lemma missing_command_is_error_witness :
  (∃ st' : @state linux,
     _handle_bash_command no_entries
       (start linux [] (new_session ambient_env false))
       = (st', Returned {[ "error" := u "No command provided to execute." ]})
     ∧ self st' = new_session ambient_env false
     ∧ the_world st' = ([] : list Response)
     ∧ spawns (trace st') = [])
  ∧ (∃ st' : @state linux,
       process_tool_calls [ToolUseBlock (u "toolu_01") (u "bash") no_entries]
         (start linux [] (new_session ambient_env false))
       = (st', Returned
            [mkToolResult (u "toolu_01")
               (mkEnvelope [u "No command provided to execute."]
                  (u "toolu_01") true)])).
Proof.
  apply (missing_command_is_error (host := linux)
           (start linux [] (new_session ambient_env false)) (u "toolu_01")
           no_entries);
    by vm_compute.
Defined.

Lemma command_after_restart_uses_ambient_witness :
  spawns (trace (@_handle_bash_command linux echo_hi
                   (@_handle_bash_command linux restart_only
                      (start linux [] (new_session stale_env false))).1).1)
  = [] ++ [(PStr (u "echo hi"), ambient_env)].
Proof.
  apply (command_after_restart_uses_ambient (host := linux)
           (start linux [] (new_session stale_env false)) restart_only echo_hi);
    by vm_compute.
Defined.

(** ** Further properties of the router *)

Section RouterExtras.
Context `{host : Host}.
Implicit Types (st : state) (blocks : list ContentBlock).

(** X5. The router never raises and returns one entry for each bash
    invocation of the response, in the order of the response, under the
    identifier of the invocation, as [tool_call_id] and as [tool_use_id]
    of the envelope; text blocks and invocations of other tools give no
    entry. *)
Theorem router_results_match_bash_calls blocks st :
  ∃ st' results,
    process_tool_calls blocks st = (st', Returned results)
    ∧ tool_call_id <$> results = (bash_calls blocks).*1
    ∧ (λ r, tool_use_id (output r)) <$> results = (bash_calls blocks).*1.
Proof.
  destruct (process_tool_calls_frame blocks st)
    as (st' & results & evs & Hrun & Hids & Huse & _).
  exists st', results. split; [done |]. split; [done |].
  rewrite <- Hids. clear Hids Hrun.
  induction Huse as [|r results Hr _ IH]; [done |].
  by rewrite !fmap_cons, Hr, IH.
Qed.

(** X6. After the router, [current_tool_calls] lists the bash
    invocations of this response and no other: the identifier of each
    with its command, or the empty string where the input has none.
    What the list held before is gone. *)
Theorem router_records_tool_calls blocks st :
  current_tool_calls (self (process_tool_calls blocks st).1)
  = call_record <$> bash_calls blocks.
Proof.
  destruct (process_tool_calls_frame blocks st)
    as (st' & results & evs & Hrun & _ & _ & _ & _ & _ & Hrec & _).
  by rewrite Hrun.
Qed.

(** X7. A response without a bash invocation (text, other tools): the
    router returns no entry, runs and logs nothing, and only empties
    [current_tool_calls]. *)
Theorem router_skips_other_blocks blocks st :
  bash_calls blocks = [] →
  process_tool_calls blocks st = (router_reset st, Returned []).
Proof.
  intros Hnone.
  destruct (process_tool_calls_frame blocks st)
    as (st' & results & evs & Hrun & Hids & _ & _ & _ & _ & _ & _ & _ & _ & _
        & Hsame).
  rewrite Hrun, (Hsame Hnone). rewrite Hnone in Hids.
  by destruct results.
Qed.

(** X8. The router leaves the conversation, the usage ledger and the
    dry-run flag as they were, never calls the provider and never
    prints; in dry-run mode it starts no subprocess and leaves the
    machine as it was. *)
Theorem router_keeps_conversation blocks st :
  let st' := (process_tool_calls blocks st).1 in
  messages (self st') = messages (self st)
  ∧ session_logger (self st') = session_logger (self st)
  ∧ no_agi (self st') = no_agi (self st)
  ∧ provider_calls (trace st') = provider_calls (trace st)
  ∧ printed (trace st') = printed (trace st)
  ∧ (no_agi (self st) = true →
     spawns (trace st') = spawns (trace st) ∧ the_world st' = the_world st).
Proof.
  destruct (process_tool_calls_frame blocks st)
    as (st' & results & evs & Hrun & _ & _ & Hmsgs & Hledger & Hdry & _
        & Htrace & Hcalls & Hprinted & Hspawns & _).
  simpl. rewrite Hrun. simpl.
  rewrite Htrace, provider_calls_app, printed_app, spawns_app, Hcalls, Hprinted.
  rewrite !app_nil_r.
  split; [done |]. split; [done |]. split; [done |]. split; [done |].
  split; [done |].
  intros Hd. destruct (Hspawns Hd) as [-> Hworld]. by rewrite app_nil_r.
Qed.

End RouterExtras.

Lemma router_skips_other_blocks_witness :
  @process_tool_calls linux (resp_content asks_editor)
    (start linux [] (new_session ambient_env false))
  = (start linux [] (new_session ambient_env false), Returned []).
Proof.
  apply (router_skips_other_blocks (host := linux) (resp_content asks_editor)
           (start linux [] (new_session ambient_env false))).
  by vm_compute.
Defined.

(** ** Further properties of the loop *)

Section LoopExtras.
Context `{host : Host}.
Implicit Types (st : state) (response : Response).

(** X9. The usage of every response is added to the ledger in the round
    that received it, whatever becomes of the round afterwards (answer,
    tool error, exception): after the round each of the two totals is
    what it was plus the tokens of the response.  A provider call that
    raises leaves the session as it was. *)
Theorem round_records_usage st :
  (∀ (w1 : world) response,
     messages_create (messages (self st)) (the_world st)
       = (w1, Returned response) →
     total_input_tokens (session_logger (self (loop_round st).1))
     = total_input_tokens (session_logger (self st))
       + usage_input_tokens response
     ∧ total_output_tokens (session_logger (self (loop_round st).1))
       = total_output_tokens (session_logger (self st))
         + usage_output_tokens response)
  ∧ (∀ (w1 : world) e,
       messages_create (messages (self st)) (the_world st) = (w1, Raised e) →
       self (loop_round st).1 = self st).
Proof.
  destruct (loop_round_frame st) as (_ & _ & _ & Hcase).
  split; intros w1 r Hcreate; rewrite Hcreate in Hcase.
  - destruct Hcase as [Hledger _]. by rewrite Hledger.
  - by destruct Hcase.
Qed.

(** X10. A round that received a response appends to the conversation
    the assistant turn and, when tools were asked for and the router
    returned any entry, one user turn with the first envelope; nothing
    that was in the conversation is changed. *)
Theorem round_appends_turns st (w1 : world) response :
  messages_create (messages (self st)) (the_world st)
    = (w1, Returned response) →
  ∃ st2 results,
    process_tool_calls (resp_content response) (after_response st w1 response)
      = (st2, Returned results)
    ∧ messages (self (loop_round st).1)
      = messages (self st) ++ round_turns response results.
Proof.
  intros Hcreate.
  destruct (loop_round_frame st) as (_ & _ & _ & Hcase).
  rewrite Hcreate in Hcase. destruct Hcase as [_ Hmsgs].
  destruct (process_tool_calls_frame (resp_content response)
              (after_response st w1 response))
    as (st2 & results & evs & Hrun & _).
  exists st2, results. split; [done |]. by rewrite Hrun in Hmsgs.
Qed.

(** X11. A response that stops for tool use without any bash invocation
    (it asks for other tools only): nothing is run, no user turn is
    appended, no error is raised and the loop goes on, so the provider is
    called again with the conversation ending in its own turn. *)
Theorem tool_round_without_bash_goes_on st (w1 : world) response :
  messages_create (messages (self st)) (the_world st)
    = (w1, Returned response) →
  stop_reason response = u "tool_use" →
  bash_calls (resp_content response) = [] →
  loop_round st = (router_reset (after_response st w1 response), Returned None).
Proof.
  intros Hcreate Hstop Hnone.
  rewrite (loop_round_tools _ _ _ Hcreate Hstop).
  pose proof (process_tool_calls_frame (resp_content response)
                (after_response st w1 response))
    as (st2 & results & evs & Hrun & Hids & _ & _ & _ & _ & _ & _ & _ & _ & _
        & Hsame).
  rewrite Hrun, (Hsame Hnone). rewrite Hnone in Hids.
  by destruct results.
Qed.

(** X12. Complement of C4: when the first entry the router returns is
    not an error, the round appends it as a user turn and the loop goes
    on, even if a later entry of the same response is an error. *)
Theorem tool_round_goes_on_after_success st (w1 : world) response st2 first
    others :
  messages_create (messages (self st)) (the_world st)
    = (w1, Returned response) →
  stop_reason response = u "tool_use" →
  process_tool_calls (resp_content response) (after_response st w1 response)
    = (st2, Returned (first :: others)) →
  is_error (output first) = false →
  loop_round st = (deliver st2 first, Returned None).
Proof.
  intros Hcreate Hstop Hrouter Hok.
  by rewrite (loop_round_tools _ _ _ Hcreate Hstop), Hrouter, Hok.
Qed.

(** X13. When a provider call raises, in any round of a run, the run
    raises the same exception to its caller: the session is as the round
    found it, two error records are logged and the cost lines are not
    written. *)
Theorem provider_failure_is_raised k fuel bash_prompt conversation_history
    st_init st (w1 : world) e :
  rounds k (loop_entry st_init bash_prompt conversation_history) st →
  messages_create (messages (self st)) (the_world st) = (w1, Raised e) →
  process_bash_command (k + S fuel) bash_prompt conversation_history st_init
  = (mkState w1 (self st)
       (trace st
        ++ [Create (messages (self st));
            Log LvError (u "Error in process_bash_command: " ++ exn_msg e);
            Log LvError (format_exc e)]),
     Raised e).
Proof.
  intros Hrounds Hcreate.
  erewrite process_bash_command_raised.
  2: { rewrite (agent_loop_rounds _ _ _ _ Hrounds).
       apply agent_loop_raised. by apply loop_round_create_raised. }
  simpl. by rewrite <- app_assoc.
Qed.

(** X14. When a response does not stop for tool use and its first block
    is a text block, in any round of a run, the run ends with that text
    as the answer: the assistant turn is the last of the conversation,
    the text is the last thing printed and nothing is run. *)
Theorem run_answers_with_first_block k fuel bash_prompt conversation_history
    st_init st (w1 : world) response text rest :
  rounds k (loop_entry st_init bash_prompt conversation_history) st →
  messages_create (messages (self st)) (the_world st)
    = (w1, Returned response) →
  stop_reason response ≠ u "tool_use" →
  resp_content response = TextBlock text :: rest →
  ∃ st',
    process_bash_command (k + S fuel) bash_prompt conversation_history st_init
      = (st', Returned (Some (FinalAnswer text)))
    ∧ messages (self st')
      = messages (self st)
          ++ [mkMessage (u "assistant") (TextParam text :: (block_param <$> rest))]
    ∧ printed (trace st') = printed (trace st) ++ [text]
    ∧ spawns (trace st') = spawns (trace st)
    ∧ the_world st' = w1.
Proof.
  intros Hrounds Hcreate Hstop Hcontent.
  destruct (final_answer_is_first_block k fuel _ _ _ _ _ _
              Hrounds Hcreate Hstop Hcontent) as [_ Hloop].
  eexists. split; [by apply process_bash_command_exit |].
  unfold cost_logged, after_response. simpl.
  rewrite Hcontent, !printed_app, !spawns_app. simpl.
  by rewrite ?app_nil_r.
Qed.

End LoopExtras.

(** ** Further properties of a run *)

Section RunExtras.
Context `{host : Host}.
Implicit Types (st : state) (conversation_history : list HistoryMsg).

Lemma loop_entry_fields st bash_prompt conversation_history :
  let st0 := loop_entry st bash_prompt conversation_history in
  messages (self st0)
  = history_to_api conversation_history
      ++ [current_turn (no_agi (self st)) bash_prompt]
  ∧ no_agi (self st0) = no_agi (self st)
  ∧ spawns (trace st0) = spawns (trace st)
  ∧ provider_calls (trace st0) = provider_calls (trace st).
Proof.
  unfold loop_entry, current_turn. simpl.
  rewrite spawns_app, provider_calls_app. simpl. rewrite !app_nil_r.
  by destruct (no_agi (self st)).
Qed.

(** X15. Whatever the provider answers and however the run ends, the
    conversation of the session after a run starts with the converted
    history followed by the user turn of the prompt: the run only appends
    to it.  What the session held as conversation before the run is
    replaced. *)
Theorem run_keeps_history fuel bash_prompt conversation_history st :
  let st' := (process_bash_command fuel bash_prompt conversation_history st).1 in
  (history_to_api conversation_history
     ++ [current_turn (no_agi (self st)) bash_prompt])
    `prefix_of` messages (self st').
Proof.
  destruct (process_bash_command_frame fuel bash_prompt conversation_history st)
    as (logs & Hst' & _).
  destruct (agent_loop_frame fuel
              (loop_entry st bash_prompt conversation_history))
    as (_ & Hprefix & _).
  destruct (loop_entry_fields st bash_prompt conversation_history)
    as (Hmsgs & _).
  simpl in *. rewrite Hst'. simpl. by rewrite <- Hmsgs.
Qed.

(** X16. The provider is called with the whole conversation each time:
    the first call of a run receives the converted history followed by
    the user turn of the prompt, and every later call receives an
    extension of what every earlier call received. *)
Theorem provider_sees_growing_history fuel bash_prompt conversation_history st :
  let st' := (process_bash_command fuel bash_prompt conversation_history st).1 in
  ∃ calls,
    provider_calls (trace st') = provider_calls (trace st) ++ calls
    ∧ StronglySorted prefix calls
    ∧ (fuel ≠ 0%nat →
       head calls
       = Some (history_to_api conversation_history
                 ++ [current_turn (no_agi (self st)) bash_prompt])).
Proof.
  destruct (process_bash_command_frame fuel bash_prompt conversation_history st)
    as (logs & Hst' & Hlogs).
  destruct (agent_loop_frame fuel
              (loop_entry st bash_prompt conversation_history))
    as (_ & _ & _ & calls & Hcalls & _ & Hsorted & Hhead).
  destruct (loop_entry_fields st bash_prompt conversation_history)
    as (Hmsgs & _ & _ & Hcalls0).
  destruct (logs_are_silent logs Hlogs) as (_ & Hnone & _).
  simpl in *. rewrite Hst'. simpl. exists calls.
  split; [by rewrite provider_calls_app, Hnone, app_nil_r, Hcalls, Hcalls0 |].
  split; [done |]. intros Hfuel. by rewrite <- Hmsgs, Hhead.
Qed.

(** X17. In dry-run mode a whole run starts no subprocess, whatever the
    provider asks for and however the run ends, and the session is still
    in dry-run mode after it. *)
Theorem dry_run_never_spawns fuel bash_prompt conversation_history st :
  no_agi (self st) = true →
  let st' := (process_bash_command fuel bash_prompt conversation_history st).1 in
  spawns (trace st') = spawns (trace st) ∧ no_agi (self st') = true.
Proof.
  intros Hdry.
  destruct (process_bash_command_frame fuel bash_prompt conversation_history st)
    as (logs & Hst' & Hlogs).
  destruct (agent_loop_frame fuel
              (loop_entry st bash_prompt conversation_history))
    as (Hdry' & _ & Hspawns & _).
  destruct (loop_entry_fields st bash_prompt conversation_history)
    as (_ & Hdry0 & Hspawns0 & _).
  destruct (logs_are_silent logs Hlogs) as (Hnone & _).
  cbv zeta in *. rewrite Hst'. simpl.
  rewrite spawns_app, Hnone, app_nil_r.
  split; [|congruence].
  rewrite Hspawns by congruence. done.
Qed.

Lemma history_to_api_app (h1 h2 : list HistoryMsg) :
  history_to_api (h1 ++ h2) = history_to_api h1 ++ history_to_api h2.
Proof.
  induction h1 as [|msg h1 IH]; [done |]. simpl.
  case_bool_decide; simpl; [f_equal |]; exact IH.
Qed.

End RunExtras.

Lemma role_is_kept (r : pystr) :
  r ∈ [u "user"; u "assistant"] ↔ r = u "user" ∨ r = u "assistant".
Proof. rewrite !elem_of_cons, elem_of_nil. tauto. Qed.

(** X18. The conversion of the stored history keeps the entries of the
    user and of the assistant, each as a turn with a single text block,
    in their order, and drops every entry with another role; it
    distributes over concatenation. *)
Theorem history_conversion (h1 h2 : list HistoryMsg) :
  history_to_api (h1 ++ h2) = history_to_api h1 ++ history_to_api h2
  ∧ Forall (λ m, (role m = u "user" ∨ role m = u "assistant")
                 ∧ ∃ text, content m = [TextParam text])
      (history_to_api h1)
  ∧ (Forall (λ e, h_role e = u "user" ∨ h_role e = u "assistant") h1 →
     history_to_api h1
     = (λ e, mkMessage (h_role e) [TextParam (h_content e)]) <$> h1)
  ∧ (Forall (λ e, h_role e ≠ u "user" ∧ h_role e ≠ u "assistant") h1 →
     history_to_api h1 = []).
Proof.
  split; [apply history_to_api_app |]. split; [|split].
  - induction h1 as [|msg h1 IH]; [constructor |]. simpl.
    case_bool_decide as Hrole; [|done].
    constructor; [|done]. simpl. split; [|by eexists].
    by apply role_is_kept.
  - induction 1 as [|msg h1 Hrole _ IH]; [done |]. simpl.
    rewrite bool_decide_eq_true_2 by (by apply role_is_kept).
    by rewrite IH.
  - induction 1 as [|msg h1 Hrole _ IH]; [done |]. simpl.
    rewrite bool_decide_eq_false_2; [done |].
    rewrite role_is_kept. tauto.
Qed.

(** ** The further loop properties on concrete runs *)

Lemma round_records_usage_witness :
  total_input_tokens
    (session_logger (self (@loop_round linux (start linux [cut_off] billed)).1))
  = 502 + 431
  ∧ total_output_tokens
      (session_logger (self (@loop_round linux (start linux [cut_off] billed)).1))
    = 12 + 4096.
Proof.
  apply (proj1 (round_records_usage (host := linux)
                  (start linux [cut_off] billed))
           [] cut_off).
  by vm_compute.
Defined.

(** The totals of that round, computed. *)
Example billed_round_totals :
  session_logger (self (@loop_round linux (start linux [cut_off] billed)).1)
  = {| total_input_tokens := 933; total_output_tokens := 4108 |}.
Proof. by vm_compute. Qed.

Lemma round_appends_turns_witness :
  ∃ (st2 : @state linux) results,
    process_tool_calls (resp_content asks_false)
      (after_response
         (start linux [asks_false]
            (prompted ambient_env false (u "run false")))
         [] asks_false)
      = (st2, Returned results)
    ∧ messages
        (self (@loop_round linux
                 (start linux [asks_false]
                    (prompted ambient_env false (u "run false")))).1)
      = messages (prompted ambient_env false (u "run false"))
          ++ round_turns asks_false results.
Proof.
  apply (round_appends_turns (host := linux)
           (start linux [asks_false]
              (prompted ambient_env false (u "run false")))
           [] asks_false).
  by vm_compute.
Defined.

Lemma tool_round_without_bash_goes_on_witness :
  @loop_round linux
    (start linux [asks_editor; answers]
       (prompted ambient_env false (u "show my notes")))
  = (router_reset
       (after_response
          (start linux [asks_editor; answers]
             (prompted ambient_env false (u "show my notes")))
          [answers] asks_editor),
     Returned None).
Proof.
  apply (tool_round_without_bash_goes_on (host := linux)
           (start linux [asks_editor; answers]
              (prompted ambient_env false (u "show my notes")))
           [answers] asks_editor);
    by vm_compute.
Defined.

Lemma tool_round_goes_on_after_success_witness :
  ∃ st2 : @state linux,
    @loop_round linux
      (start linux [asks_two; answers]
         (prompted ambient_env false (u "say hi, list /nonexistent")))
    = (deliver st2
         (mkToolResult (u "toolu_01")
            (mkEnvelope [u "hi"] (u "toolu_01") false)),
       Returned None).
Proof.
  eexists.
  apply (tool_round_goes_on_after_success (host := linux)
           (start linux [asks_two; answers]
              (prompted ambient_env false (u "say hi, list /nonexistent")))
           [answers] asks_two
           (@process_tool_calls linux (resp_content asks_two)
              (after_response
                 (start linux [asks_two; answers]
                    (prompted ambient_env false
                       (u "say hi, list /nonexistent")))
                 [answers] asks_two)).1
           (mkToolResult (u "toolu_01")
              (mkEnvelope [u "hi"] (u "toolu_01") false))
           [mkToolResult (u "toolu_02")
              (mkEnvelope
                 [u "ls: cannot access '/nonexistent': No such file or directory"]
                 (u "toolu_02") true)]);
    by vm_compute.
Defined.

Lemma provider_failure_is_raised_witness :
  (@process_bash_command linux (0 + 1) (u "say hi") []
     (start linux [] (new_session ambient_env false))).2
  = Raised (mkExn "APIConnectionError" (u "Connection error.")).
Proof.
  rewrite (provider_failure_is_raised (host := linux) 0 0 (u "say hi") []
             (start linux [] (new_session ambient_env false))
             (@loop_entry linux (start linux [] (new_session ambient_env false))
                (u "say hi") [])
             [] (mkExn "APIConnectionError" (u "Connection error.")));
    [reflexivity | constructor | by vm_compute].
Defined.

Lemma run_answers_with_first_block_witness :
  ∃ st' : @state linux,
    process_bash_command (0 + 1) (u "say hi") []
      (start linux [answers] (new_session ambient_env false))
    = (st', Returned (Some (FinalAnswer (u "The command printed hi."))))
    ∧ printed (trace st') = [u "The command printed hi."].
Proof.
  destruct (run_answers_with_first_block (host := linux) 0 0 (u "say hi") []
              (start linux [answers] (new_session ambient_env false))
              (@loop_entry linux
                 (start linux [answers] (new_session ambient_env false))
                 (u "say hi") [])
              [] answers (u "The command printed hi.") [])
    as (st' & Hrun & _ & Hprinted & _);
    [constructor | by vm_compute .. |].
  exists st'. split; [exact Hrun |]. rewrite Hprinted. by vm_compute.
Defined.

Lemma dry_run_never_spawns_witness :
  spawns (trace (@process_bash_command linux 5 (u "say hi, list /nonexistent") []
                   (start linux [asks_two; answers]
                      (new_session ambient_env true))).1)
  = []
  ∧ no_agi (self (@process_bash_command linux 5
                    (u "say hi, list /nonexistent") []
                    (start linux [asks_two; answers]
                       (new_session ambient_env true))).1)
    = true.
Proof.
  apply (dry_run_never_spawns (host := linux) 5
           (u "say hi, list /nonexistent") []
           (start linux [asks_two; answers] (new_session ambient_env true))).
  by vm_compute.
Defined.

Lemma history_conversion_witness :
  history_to_api [mkHistoryMsg (u "system") (u "conversation restored")] = []
  ∧ history_to_api
      [mkHistoryMsg (u "user") (u "list the files");
       mkHistoryMsg (u "assistant") (u "There are two files.")]
    = [mkMessage (u "user") [TextParam (u "list the files")];
       mkMessage (u "assistant") [TextParam (u "There are two files.")]].
Proof.
  split.
  - apply (proj2 (proj2 (proj2 (history_conversion
             [mkHistoryMsg (u "system") (u "conversation restored")] [])))).
    repeat constructor; by vm_compute.
  - apply (proj1 (proj2 (proj2 (history_conversion
             [mkHistoryMsg (u "user") (u "list the files");
              mkHistoryMsg (u "assistant") (u "There are two files.")] [])))).
    repeat constructor; by vm_compute.
Defined.

(** ** The reply of [process_bot_response] *)

Lemma first_text_param_blocks (blocks : list ContentBlock) :
  first_text_param (block_param <$> blocks) = first_text_block blocks.
Proof.
  induction blocks as [|[text|id name input] blocks IH]; simpl; done.
Qed.

Lemma last_assistant_text_skip (users rest : list Message) :
  Forall (λ m, role m ≠ u "assistant") users →
  last_assistant_text (users ++ rest) = last_assistant_text rest.
Proof.
  induction 1 as [|m users Hrole _ IH]; [done |]. simpl.
  by rewrite bool_decide_eq_false_2.
Qed.

Lemma last_assistant_text_assistant (msgs users : list Message)
    (blocks : list ContentBlock) :
  Forall (λ m, role m ≠ u "assistant") users →
  last_assistant_text
    (reverse (msgs ++ mkMessage (u "assistant") (block_param <$> blocks) :: users))
  = default [] (first_text_block blocks).
Proof.
  intros Husers.
  rewrite reverse_app, reverse_cons, <- app_assoc.
  rewrite last_assistant_text_skip by (by apply Forall_reverse).
  simpl. rewrite bool_decide_eq_true_2 by done.
  by rewrite first_text_param_blocks.
Qed.

(** X19. The text [process_bot_response] takes from the conversation is
    the first text block of the last assistant turn, wherever it stands
    among the blocks of that turn and whatever user turns follow it; it
    is empty when that turn has no text block, and when the conversation
    has no assistant turn. *)
Theorem reply_is_first_text_of_last_response (msgs users : list Message)
    (blocks : list ContentBlock) :
  Forall (λ m, role m ≠ u "assistant") users →
  last_assistant_text
    (reverse (msgs ++ mkMessage (u "assistant") (block_param <$> blocks) :: users))
  = default [] (first_text_block blocks)
  ∧ (first_text_block blocks = None →
     last_assistant_text
       (reverse (msgs ++ mkMessage (u "assistant") (block_param <$> blocks)
                      :: users))
     = [])
  ∧ last_assistant_text (reverse users) = [].
Proof.
  intros Husers.
  split; [by apply last_assistant_text_assistant |].
  split.
  - intros Hnone. by rewrite last_assistant_text_assistant, Hnone.
  - rewrite <- (app_nil_r (reverse users)).
    by rewrite last_assistant_text_skip by (by apply Forall_reverse).
Qed.

Lemma reply_is_first_text_of_last_response_witness :
  last_assistant_text
    (reverse
       ([mkMessage (u "user") [TextParam (u "say hi")]]
        ++ mkMessage (u "assistant") (block_param <$> resp_content cut_off)
        :: [mkMessage (u "user")
              [ToolResultParam (mkEnvelope [u "hi"] (u "toolu_01") false)]]))
  = default [] (Some (u "hi")).
Proof.
  apply (proj1 (reply_is_first_text_of_last_response
           [mkMessage (u "user") [TextParam (u "say hi")]]
           [mkMessage (u "user")
              [ToolResultParam (mkEnvelope [u "hi"] (u "toolu_01") false)]]
           (resp_content cut_off)
           ltac:(repeat constructor; by vm_compute))).
Defined.

Section MainExtras.
Context `{host : Host}.
Implicit Types (st : state) (response : Response).

Lemma process_bot_response_exit fuel docs message history st st' exit :
  process_bash_command fuel (with_docs_context docs message) history st
    = (st', Returned (Some exit)) →
  process_bot_response fuel docs message history st
  = (st', Returned (Some (reply_text (self st')))).
Proof.
  intros Hrun. unfold process_bot_response, mbind, M_bind. by rewrite Hrun.
Qed.

Lemma process_bot_response_state fuel docs message history st :
  (process_bot_response fuel docs message history st).1
  = (process_bash_command fuel (with_docs_context docs message) history st).1.
Proof.
  unfold process_bot_response, mbind, M_bind.
  by destruct (process_bash_command _ _ _ _) as [st' [[exit|]|e]].
Qed.

(** The reply after an answer, in terms of the round that received it. *)
Lemma bot_response_answer k fuel docs message history st_init st (w1 : world)
    response text rest :
  rounds k (loop_entry st_init (with_docs_context docs message) history) st →
  messages_create (messages (self st)) (the_world st)
    = (w1, Returned response) →
  stop_reason response ≠ u "tool_use" →
  resp_content response = TextBlock text :: rest →
  ∃ st',
    process_bot_response (k + S fuel) docs message history st_init
    = (st', Returned (Some
         match current_tool_calls (self st) with
         | [] => text
         | calls => tool_calls_text calls ++ nl ++ text
         end)).
Proof.
  intros Hrounds Hcreate Hstop Hcontent.
  destruct (final_answer_is_first_block k fuel _ _ _ _ _ _
              Hrounds Hcreate Hstop Hcontent) as [_ Hloop].
  eexists. erewrite process_bot_response_exit;
    [|by apply process_bash_command_exit].
  do 3 f_equal. unfold reply_text, cost_logged, after_response. simpl.
  rewrite (last_assistant_text_assistant (messages (self st)) []
             (resp_content response)) by constructor.
  rewrite Hcontent. simpl. by destruct (current_tool_calls (self st)).
Qed.

(** X20. When the run ends with an answer (a response that does not
    stop for tool use and starts with a text block), the reply of
    [process_bot_response] is that text, preceded by the list of the
    commands in [current_tool_calls] when there are any.  That list is
    the one the round found: the commands of the last response that asked
    for tools, in this run or, when this run had none, in an earlier
    one. *)
Theorem bot_response_after_answer k fuel docs message history st_init st
    (w1 : world) response text rest :
  rounds k (loop_entry st_init (with_docs_context docs message) history) st →
  messages_create (messages (self st)) (the_world st)
    = (w1, Returned response) →
  stop_reason response ≠ u "tool_use" →
  resp_content response = TextBlock text :: rest →
  ∃ st',
    process_bot_response (k + S fuel) docs message history st_init
    = (st', Returned (Some
         match current_tool_calls (self st) with
         | [] => text
         | calls => tool_calls_text calls ++ nl ++ text
         end))
    ∧ current_tool_calls (self st') = current_tool_calls (self st)
    ∧ (k = 0%nat →
       current_tool_calls (self st) = current_tool_calls (self st_init)).
Proof.
  intros Hrounds Hcreate Hstop Hcontent.
  destruct (bot_response_answer k fuel docs message history st_init st w1
              response text rest Hrounds Hcreate Hstop Hcontent)
    as (st' & Hreply).
  exists st'. split; [exact Hreply |].
  split.
  - destruct (final_answer_is_first_block k fuel _ _ _ _ _ _
                Hrounds Hcreate Hstop Hcontent) as [_ Hloop].
    apply process_bash_command_exit in Hloop.
    erewrite process_bot_response_exit in Hreply by exact Hloop.
    by injection Hreply as <- _.
  - intros ->. by inversion Hrounds.
Qed.

(** X21. When the run is aborted on a tool error, the reply of
    [process_bot_response] lists the commands of that response and ends
    with the first text block of that response, or with nothing when it
    has none; the text of the error is not part of the reply. *)
Theorem bot_response_after_abort k fuel docs message history st_init st
    (w1 : world) response st2 first others :
  rounds k (loop_entry st_init (with_docs_context docs message) history) st →
  messages_create (messages (self st)) (the_world st)
    = (w1, Returned response) →
  stop_reason response = u "tool_use" →
  process_tool_calls (resp_content response) (after_response st w1 response)
    = (st2, Returned (first :: others)) →
  is_error (output first) = true →
  ∃ st',
    process_bot_response (k + S fuel) docs message history st_init
    = (st', Returned (Some
         (tool_calls_text (call_record <$> bash_calls (resp_content response))
          ++ nl ++ default [] (first_text_block (resp_content response))))).
Proof.
  intros Hrounds Hcreate Hstop Hrouter Herror.
  destruct (process_tool_calls_frame (resp_content response)
              (after_response st w1 response))
    as (st2' & results & evs & Hrun & Hids & _ & Hmsgs & _ & _ & Hrec & _).
  rewrite Hrouter in Hrun. injection Hrun as <- <-.
  eexists. erewrite process_bot_response_exit.
  2: { apply process_bash_command_exit.
       rewrite (agent_loop_rounds _ _ _ _ Hrounds).
       apply agent_loop_exit.
       by rewrite (loop_round_tools _ _ _ Hcreate Hstop), Hrouter, Herror. }
  do 3 f_equal. unfold reply_text, cost_logged, deliver. simpl.
  rewrite Hmsgs, Hrec. unfold after_response. simpl.
  rewrite <- app_assoc. simpl.
  rewrite (last_assistant_text_assistant (messages (self st))
             [mkMessage (u "user") [ToolResultParam (output first)]]
             (resp_content response))
    by (repeat constructor; by vm_compute).
  destruct (bash_calls (resp_content response)); [discriminate Hids | done].
Qed.

End MainExtras.

Lemma docs_context_grows (docs : list (pystr * pyval)) : ∀ context,
  nonempty context = true →
  nonempty (foldl (λ context doc,
                     context ++ nl ++ u "Reference documentation from " ++ doc.1
                             ++ u ":" ++ nl ++ py_str doc.2 ++ nl)
                  context docs) = true.
Proof.
  induction docs as [|doc docs IH]; intros context Hne; [done |].
  simpl. apply IH. by destruct context.
Qed.

(** X22. Without uploaded documents the message is passed on as it is;
    with documents it is passed on behind a header, the documents and
    "User query: ".  In both cases what is passed on ends with the
    message. *)
Theorem docs_context_keeps_message (docs : list (pystr * pyval))
    (message : pystr) :
  with_docs_context [] message = message
  ∧ (docs ≠ [] →
     with_docs_context docs message
     = u "Using the following documentation as reference:" ++ nl
         ++ docs_context docs ++ nl ++ nl ++ u "User query: " ++ message)
  ∧ message `suffix_of` with_docs_context docs message.
Proof.
  split; [done |].
  assert (Hdocs : docs ≠ [] → nonempty (docs_context docs) = true).
  { destruct docs as [|doc docs]; [done |]. intros _.
    unfold docs_context. simpl. by apply docs_context_grows. }
  split.
  - intros Hne. unfold with_docs_context. by rewrite (Hdocs Hne).
  - unfold with_docs_context.
    destruct (nonempty (docs_context docs)); [|done].
    exists (u "Using the following documentation as reference:" ++ nl
              ++ docs_context docs ++ nl ++ nl ++ u "User query: ").
    by rewrite <- !app_assoc.
Qed.

Section ChatTurn.
Context `{host : Host}.
Implicit Types (st : state).

Lemma chat_turn_state fuel docs prompt history st :
  (chat_turn fuel docs prompt history st).1
  = (process_bash_command fuel (with_docs_context docs prompt)
       (history ++ [mkHistoryMsg (u "user") prompt]) st).1.
Proof.
  unfold chat_turn, mbind, M_bind.
  rewrite <- process_bot_response_state.
  by destruct (process_bot_response _ _ _ _ _) as [st' [[reply|]|e]].
Qed.

(** X23. In a chat turn the prompt reaches the provider twice: [main]
    appends it to the history before it calls [process_bot_response] with
    the prompt and that history, so the first provider call receives the
    converted earlier history, a user turn with the prompt, and the user
    turn of the run, which holds the prompt again (behind the documents
    and the dry-run tag when there are any). *)
Theorem chat_turn_sends_prompt_twice fuel docs prompt history st :
  fuel ≠ 0%nat →
  ∃ calls,
    provider_calls (trace (chat_turn fuel docs prompt history st).1)
      = provider_calls (trace st) ++ calls
    ∧ head calls
      = Some (history_to_api history
                ++ [mkMessage (u "user") [TextParam prompt];
                    current_turn (no_agi (self st))
                      (with_docs_context docs prompt)]).
Proof.
  intros Hfuel. rewrite chat_turn_state.
  set (history' := history ++ [mkHistoryMsg (u "user") prompt]).
  set (message := with_docs_context docs prompt).
  destruct (process_bash_command_frame fuel message history' st)
    as (logs & Hst' & Hlogs).
  destruct (agent_loop_frame fuel (loop_entry st message history'))
    as (_ & _ & _ & calls & Hcalls & _ & _ & Hhead).
  destruct (loop_entry_fields st message history') as (Hmsgs & _ & _ & Hcalls0).
  destruct (logs_are_silent logs Hlogs) as (_ & Hnone & _).
  cbv zeta in *. rewrite Hst'. simpl. exists calls.
  split; [by rewrite provider_calls_app, Hnone, app_nil_r, Hcalls, Hcalls0 |].
  rewrite (Hhead Hfuel), Hmsgs. unfold history'.
  rewrite history_to_api_app. simpl.
  rewrite bool_decide_eq_true_2 by (by apply role_is_kept; left).
  by rewrite <- app_assoc.
Qed.

End ChatTurn.

(** ** The reply properties on concrete runs *)

Lemma bot_response_after_answer_witness :
  ∃ st' : @state linux,
    process_bot_response (0 + 1) [] (u "and now?") []
      (start linux [answers] session_after_echo)
    = (st', Returned (Some
         (tool_calls_text
            [mkToolCallRecord (PStr (u "echo hi")) (u "toolu_00")]
          ++ nl ++ u "The command printed hi."))).
Proof.
  destruct (bot_response_after_answer (host := linux) 0 0 [] (u "and now?") []
              (start linux [answers] session_after_echo)
              (@loop_entry linux (start linux [answers] session_after_echo)
                 (with_docs_context [] (u "and now?")) [])
              [] answers (u "The command printed hi.") [])
    as (st' & Hreply & _);
    [constructor | by vm_compute .. |].
  exists st'. rewrite Hreply. by vm_compute.
Defined.

Lemma bot_response_after_abort_witness :
  ∃ st' : @state linux,
    process_bot_response (0 + 1) [] (u "run false") []
      (start linux [asks_false] (new_session ambient_env false))
    = (st', Returned (Some
         (tool_calls_text [mkToolCallRecord (PStr (u "false")) (u "toolu_01")]
          ++ nl ++ u "I will run it."))).
Proof.
  destruct (bot_response_after_abort (host := linux) 0 0 [] (u "run false") []
              (start linux [asks_false] (new_session ambient_env false))
              (@loop_entry linux
                 (start linux [asks_false] (new_session ambient_env false))
                 (with_docs_context [] (u "run false")) [])
              [] asks_false
              (@process_tool_calls linux (resp_content asks_false)
                 (after_response
                    (@loop_entry linux
                       (start linux [asks_false] (new_session ambient_env false))
                       (with_docs_context [] (u "run false")) [])
                    [] asks_false)).1
              (mkToolResult (u "toolu_01")
                 (mkEnvelope [u "Command execution failed."] (u "toolu_01") true))
              [])
    as (st' & Hreply);
    [constructor | by vm_compute .. |].
  exists st'. rewrite Hreply. by vm_compute.
Defined.

Lemma docs_context_keeps_message_witness :
  with_docs_context [readme_doc] (u "how do I list files?")
  = u "Using the following documentation as reference:" ++ nl
      ++ docs_context [readme_doc] ++ nl ++ nl ++ u "User query: "
      ++ u "how do I list files?".
Proof.
  apply (proj1 (proj2 (docs_context_keeps_message [readme_doc]
                         (u "how do I list files?")))).
  discriminate.
Defined.

Lemma chat_turn_sends_prompt_twice_witness :
  ∃ calls,
    provider_calls
      (trace (@chat_turn linux 1 [] (u "and now?") stored_history
                (start linux [answers] (new_session ambient_env false))).1)
      = [] ++ calls
    ∧ head calls
      = Some (history_to_api stored_history
                ++ [mkMessage (u "user") [TextParam (u "and now?")];
                    current_turn false (with_docs_context [] (u "and now?"))]).
Proof.
  apply (chat_turn_sends_prompt_twice (host := linux) 1 [] (u "and now?")
           stored_history
           (start linux [answers] (new_session ambient_env false))).
  discriminate.
Defined.

(** ** The stored conversations *)

Lemma str_le_total (a : pystr) : ∀ b, str_le a b = false → str_le b a = true.
Proof.
  induction a as [|x a IH]; intros [|y b]; simpl; try done.
  destruct (N.ltb_spec x y) as [Hxy|Hxy]; [done |].
  destruct (N.ltb_spec y x) as [Hyx|Hyx]; [done |].
  apply IH.
Qed.

Lemma history_file_endswith (conversation_id : pystr) :
  endswith (history_file conversation_id) (u ".json") = true
  ∧ take (length (history_file conversation_id) - 5)
      (history_file conversation_id) = conversation_id.
Proof.
  unfold endswith, history_file.
  assert (Hlen : length (u ".json") = 5%nat) by (by vm_compute).
  rewrite length_app, Hlen.
  replace (length conversation_id + 5 - 5)%nat with (length conversation_id)
    by lia.
  split.
  - apply bool_decide_eq_true_2. by rewrite drop_app_length.
  - by rewrite take_app_length.
Qed.

Lemma endswith_json (filename : pystr) :
  endswith filename (u ".json") = true →
  history_file (take (length filename - 5) filename) = filename.
Proof.
  unfold endswith, history_file. intros Hends.
  apply bool_decide_eq_true_1 in Hends.
  assert (Hlen : length (u ".json") = 5%nat) by (by vm_compute).
  rewrite Hlen in Hends. rewrite <- Hends at 1. apply take_drop.
Qed.

Lemma insert_newest_perm (c : Conversation) (l : list Conversation) :
  insert_newest c l ≡ₚ c :: l.
Proof.
  induction l as [|d l IH]; [done |]. simpl.
  destruct (str_le d.2 c.2); [done |].
  rewrite IH. apply Permutation_swap.
Qed.

Lemma insert_newest_sorted (c : Conversation) (l : list Conversation) :
  Sorted not_older l → Sorted not_older (insert_newest c l).
Proof.
  induction 1 as [|d l Hsorted IH Hhd]; simpl.
  { by repeat constructor. }
  destruct (str_le d.2 c.2) eqn:Hle.
  { constructor; [by constructor |]. by constructor. }
  constructor; [done |].
  assert (Hdc : not_older d c) by (by apply str_le_total).
  destruct Hhd as [|d' l' Hdd']; simpl.
  - by constructor.
  - destruct (str_le d'.2 c.2); by constructor.
Qed.

(** X24. [get_conversation_list] returns the conversations it collected
    sorted by time with the newest first: each is not older than the one
    after it, none is lost and none is added. *)
Theorem conversation_list_newest_first (dir : HistoryDir)
    (result : list (pystr * pystr)) :
  get_conversation_list dir = Returned result →
  ∃ conversations,
    collect_conversations dir (listing dir) = Returned conversations
    ∧ result
      = (λ c : Conversation, (c.1.1, c.1.2)) <$> sort_newest_first conversations
    ∧ Sorted not_older (sort_newest_first conversations)
    ∧ sort_newest_first conversations ≡ₚ conversations.
Proof.
  unfold get_conversation_list.
  destruct (collect_conversations dir (listing dir)) as [conversations|e];
    [|discriminate].
  intros [= <-]. exists conversations.
  split; [done |]. split; [done |]. split.
  - induction conversations as [|c l IH]; [constructor |].
    by apply insert_newest_sorted.
  - induction conversations as [|c l IH]; [done |]. simpl.
    by rewrite insert_newest_perm, IH.
Qed.

Lemma history_file_inj (a b : pystr) : history_file a = history_file b → a = b.
Proof. unfold history_file. apply app_inv_tail. Qed.

(** What the loop over the names collects, when it raises nothing. *)
Lemma collect_conversations_spec (dir : HistoryDir) (names : list pystr) :
  ∀ conversations,
    collect_conversations dir names = Returned conversations →
    ∀ id msg time,
      (id, msg, time) ∈ conversations
      ↔ ∃ first rest,
          history_file id ∈ names
          ∧ files dir !! history_file id = Some (first :: rest)
          ∧ first !! "content" = Some msg
          ∧ time = default (ctime_iso dir (history_file id))
                     (first !! "timestamp").
Proof.
  induction names as [|filename names IH]; intros conversations Hrun id msg time.
  { injection Hrun as <-. split.
    - by intros ?%elem_of_nil.
    - by intros (first & rest & ?%elem_of_nil & _). }
  simpl in Hrun.
  destruct (endswith filename (u ".json")) eqn:Hends.
  2: { rewrite (IH _ Hrun). split; intros (first & rest & Hin & Hrest).
       - exists first, rest. split; [by right | done].
       - exists first, rest. split; [|done].
         apply elem_of_cons in Hin as [Heq|Hin]; [|done].
         destruct (history_file_endswith id) as [Htrue _].
         rewrite Heq in Htrue. congruence. }
  pose proof (endswith_json _ Hends) as Hname.
  set (conv_id := take (length filename - 5) filename) in *.
  unfold load_conversation_history in Hrun. rewrite Hname in Hrun.
  assert (Hother : ∀ conversations',
             collect_conversations dir names = Returned conversations' →
             (∀ first rest, files dir !! filename ≠ Some (first :: rest)) →
             (id, msg, time) ∈ conversations'
             ↔ ∃ first rest,
                 history_file id ∈ filename :: names
                 ∧ files dir !! history_file id = Some (first :: rest)
                 ∧ first !! "content" = Some msg
                 ∧ time = default (ctime_iso dir (history_file id))
                            (first !! "timestamp")).
  { intros conversations' Hrun' Hempty. rewrite (IH _ Hrun').
    split; intros (first & rest & Hin & Hfile & Hrest).
    - exists first, rest. split; [by right | done].
    - exists first, rest. split; [|done].
      apply elem_of_cons in Hin as [Heq|Hin]; [|done].
      rewrite Heq in Hfile. by destruct (Hempty first rest). }
  destruct (files dir !! filename) as [[|first0 rest0]|] eqn:Hfile.
  1, 3: by apply Hother.
  destruct (first0 !! "content") as [msg0|] eqn:Hcontent; [|discriminate].
  destruct (collect_conversations dir names) as [conversations'|e] eqn:Hrun';
    [|discriminate].
  injection Hrun as <-.
  split.
  - intros Hin. apply elem_of_cons in Hin as [[= -> -> ->]|Hin].
    + exists first0, rest0. rewrite Hname.
      split; [by left |]. by rewrite Hfile, Hcontent.
    + apply (IH _ eq_refl) in Hin as (first & rest & Hin & Hrest).
      exists first, rest. split; [by right | done].
  - intros (first & rest & Hin & Hfile' & Hcontent' & ->).
    apply elem_of_cons.
    apply elem_of_cons in Hin as [Heq|Hin].
    + left. rewrite Heq, Hfile in Hfile'. injection Hfile' as <- <-.
      rewrite Hcontent in Hcontent'. injection Hcontent' as <-.
      rewrite <- Hname in Heq. apply history_file_inj in Heq as ->.
      by rewrite Hname.
    + right. apply (IH _ eq_refl). by exists first, rest.
Qed.

(** X25. When [get_conversation_list] raises nothing, it lists exactly
    the conversations whose file [<id>.json] is among the names of the
    directory and holds a non-empty history, each once per occurrence of
    the name, with the content of its first entry; names without the
    suffix, missing files and empty histories give nothing. *)
Theorem conversation_list_lists_stored (dir : HistoryDir)
    (result : list (pystr * pystr)) :
  get_conversation_list dir = Returned result →
  ∀ id msg,
    (id, msg) ∈ result
    ↔ ∃ first rest,
        history_file id ∈ listing dir
        ∧ files dir !! history_file id = Some (first :: rest)
        ∧ first !! "content" = Some msg.
Proof.
  unfold get_conversation_list.
  destruct (collect_conversations dir (listing dir)) as [conversations|e]
    eqn:Hrun; [|discriminate].
  intros [= <-] id msg.
  assert (Hperm : sort_newest_first conversations ≡ₚ conversations).
  { clear Hrun. induction conversations as [|c l IH]; [done |]. simpl.
    by rewrite insert_newest_perm, IH. }
  rewrite list_elem_of_fmap. split.
  - intros ([[id' msg'] time] & [= -> ->] & Hin). simpl in *.
    rewrite Hperm in Hin.
    apply (collect_conversations_spec _ _ _ Hrun) in Hin
      as (first & rest & Hin & Hfile & Hcontent & _).
    by exists first, rest.
  - intros (first & rest & Hin & Hfile & Hcontent).
    exists (id, msg, default (ctime_iso dir (history_file id))
                       (first !! "timestamp")).
    split; [done |]. rewrite Hperm.
    apply (collect_conversations_spec _ _ _ Hrun). by exists first, rest.
Qed.

Lemma sort_newest_first_perm (conversations : list Conversation) :
  sort_newest_first conversations ≡ₚ conversations.
Proof.
  induction conversations as [|c l IH]; [done |]. simpl.
  by rewrite insert_newest_perm, IH.
Qed.

(** A file that was written is in the directory, and so is every file
    that was there. *)
Lemma write_json_listed (place : nat) (written : pystr) (dir : HistoryDir)
    (name : pystr) (history : list (gmap string pystr)) :
  name ∈ listing (write_json place written dir name history).
Proof.
  unfold write_json. simpl. case_bool_decide as Hthere; [done |].
  apply elem_of_app. right. apply elem_of_cons. by left.
Qed.

Lemma write_json_keeps_names (place : nat) (written : pystr)
    (dir : HistoryDir) (name : pystr) (history : list (gmap string pystr)) :
  ∀ other,
    other ∈ listing (write_json place written dir name history)
    ↔ other = name ∨ other ∈ listing dir.
Proof.
  intros other. unfold write_json. simpl. case_bool_decide as Hthere.
  - split; [by right |]. by intros [-> | ?].
  - rewrite <- (take_drop place (listing dir)) at 3.
    rewrite !elem_of_app, elem_of_cons. tauto.
Qed.

(** X26. Loading a conversation after it was saved returns the saved
    history, stamped; the other conversations are as they were. *)
Theorem save_then_load (now : pystr) (place : nat) (written : pystr)
    (dir : HistoryDir) (conversation_id : pystr)
    (history : list (gmap string pystr)) :
  let dir' :=
    save_conversation_history now place written dir conversation_id history in
  load_conversation_history dir' conversation_id = stamp now history
  ∧ ∀ other, other ≠ conversation_id →
      load_conversation_history dir' other = load_conversation_history dir other.
Proof.
  unfold load_conversation_history, save_conversation_history, write_json.
  simpl. split.
  - by rewrite lookup_insert_eq.
  - intros other Hother. rewrite lookup_insert_ne; [done |].
    intros Heq. by apply history_file_inj in Heq.
Qed.


(** X28. A conversation saved with a first entry that has a content is
    listed by [get_conversation_list] with that content whenever the
    listing raises nothing, whether its file was in the directory before
    the saving or is created by it, and wherever the file system puts
    the new name. *)
Theorem saved_conversation_is_listed (now : pystr) (place : nat)
    (written : pystr) (dir : HistoryDir)
    (conversation_id msg : pystr) (first : gmap string pystr)
    (rest : list (gmap string pystr)) (result : list (pystr * pystr)) :
  first !! "content" = Some msg →
  get_conversation_list
    (save_conversation_history now place written dir conversation_id
       (first :: rest))
    = Returned result →
  (conversation_id, msg) ∈ result.
Proof.
  intros Hcontent. unfold get_conversation_list.
  set (dir' := save_conversation_history now place written dir
                 conversation_id (first :: rest)).
  destruct (collect_conversations dir' (listing dir')) as [conversations|e]
    eqn:Hrun; [|discriminate].
  intros [= <-].
  assert (Hlisted : history_file conversation_id ∈ listing dir')
    by apply write_json_listed.
  assert (Hfile : ∃ first', files dir' !! history_file conversation_id
                            = Some (first' :: rest)
                            ∧ first' !! "content" = Some msg).
  { unfold dir', save_conversation_history, write_json. simpl.
    rewrite lookup_insert_eq.
    destruct (first !! "timestamp"); eexists; (split; [done |]); [done |].
    by rewrite lookup_insert_ne. }
  destruct Hfile as (first' & Hfile & Hcontent').
  apply list_elem_of_fmap.
  exists (conversation_id, msg,
          default (ctime_iso dir' (history_file conversation_id))
            (first' !! "timestamp")).
  split; [done |]. rewrite sort_newest_first_perm.
  apply (collect_conversations_spec _ _ _ Hrun). by exists first', rest.
Qed.

(** ** The stored conversations, on a concrete directory *)

Example sample_dir_list :
  get_conversation_list sample_dir
  = Returned [(u "a", u "first chat"); (u "b", u "older chat")].
Proof. by vm_compute. Qed.

Lemma conversation_list_newest_first_witness :
  ∃ conversations,
    collect_conversations sample_dir (listing sample_dir)
      = Returned conversations
    ∧ [(u "a", u "first chat"); (u "b", u "older chat")]
      = (λ c : Conversation, (c.1.1, c.1.2)) <$> sort_newest_first conversations
    ∧ Sorted not_older (sort_newest_first conversations)
    ∧ sort_newest_first conversations ≡ₚ conversations.
Proof.
  apply (conversation_list_newest_first sample_dir
           [(u "a", u "first chat"); (u "b", u "older chat")]).
  by vm_compute.
Defined.

Lemma conversation_list_lists_stored_witness :
  ∃ first rest,
    history_file (u "b") ∈ listing sample_dir
    ∧ files sample_dir !! history_file (u "b") = Some (first :: rest)
    ∧ first !! "content" = Some (u "older chat").
Proof.
  apply (proj1 (conversation_list_lists_stored sample_dir
                  [(u "a", u "first chat"); (u "b", u "older chat")]
                  ltac:(by vm_compute) (u "b") (u "older chat"))).
  right. left.
Defined.


Lemma saved_conversation_is_listed_witness :
  (u "c", u "new topic")
    ∈ [(u "c", u "new topic"); (u "a", u "first chat");
       (u "b", u "older chat")].
Proof.
  apply (saved_conversation_is_listed (u "2024-11-03T08:00:00") 1
           (u "2024-11-03T08:00:01") sample_dir
           (u "c") (u "new topic") new_topic []
           [(u "c", u "new topic"); (u "a", u "first chat");
            (u "b", u "older chat")]).
  - by vm_compute.
  - by vm_compute.
Defined.
